(** * website_api: authentication serializers and the API response mixin

    A shallow embedding of

    - [apps/users/serializers/auth_serializers.py]: the cross-field
      validators [validate_password_confirmation] of
      [UserRegistrationSerializer] and
      [PasswordResetConfirmationSerializer], with the regular expression
      the first one applies, and
    - [mixins/api_response_mixin.py]: [success], [error] and
      [paginated_response] of [APIResponseMixin],

    followed by the properties established about them. *)

From Stdlib Require Import ZArith NArith List String Ascii Bool Lia.
From Stdlib Require Import Sorted Permutation.
Import ListNotations.

Set Implicit Arguments.
Set Warnings "-register-all".

(** ** Python values *)

(** A Python [str] is a sequence of Unicode code points. *)
Definition pystr := list N.

(** A string literal of the program text (ASCII) as a [str]. *)
Definition str (s : string) : pystr :=
  map N_of_ascii (list_ascii_of_string s).

Definition pystr_eqb (a b : pystr) : bool :=
  if list_eq_dec N.eq_dec a b then true else false.

(** The values that travel through the serializers and the response
    bodies: what a JSON request body decodes to, and what a response body
    is built from.  Dictionaries keep insertion order; their keys here are
    the program's own field names.  Numbers that are not integers are
    left out: the program treats them like any other value that is not a
    string. *)
Inductive pyval :=
| PNone
| PBool (b : bool)
| PInt (z : Z)
| PStr (s : pystr)
| PList (l : list pyval)
| PDict (d : list (string * pyval)).

Definition dict := list (string * pyval).

(** [d.get(key)]: the first binding of [key], [None] when there is none. *)
Fixpoint dict_get (d : dict) (key : string) : pyval :=
  match d with
  | [] => PNone
  | (k, v) :: d' => if String.eqb k key then v else dict_get d' key
  end.

(** [key in d]. *)
Fixpoint dict_has (d : dict) (key : string) : bool :=
  match d with
  | [] => false
  | (k, _) :: d' => String.eqb k key || dict_has d' key
  end.

(** [d[key] = v] on a dictionary that may already hold [key]. *)
Fixpoint dict_set (d : dict) (key : string) (v : pyval) : dict :=
  match d with
  | [] => [(key, v)]
  | (k, w) :: d' =>
      if String.eqb k key then (k, v) :: d' else (k, w) :: dict_set d' key v
  end.

(** The dictionary without [key]. *)
Definition dict_remove (d : dict) (key : string) : dict :=
  filter (fun kv => negb (String.eqb (fst kv) key)) d.

(** [d.pop(key)]: the value of [key] and the dictionary without it, or
    nothing when [key] is absent (Python raises [KeyError]). *)
Definition dict_pop (d : dict) (key : string) : option (pyval * dict) :=
  if dict_has d key then Some (dict_get d key, dict_remove d key) else None.

(** [list(d)]: the keys, in insertion order. *)
Definition dict_keys (d : dict) : list string := map fst d.

(** Subscription of a value assumed to be a dictionary. *)
Definition item (v : pyval) (key : string) : pyval :=
  match v with
  | PDict d => dict_get d key
  | _ => PNone
  end.

(** [isinstance(v, str)]. *)
Definition isinstance_str (v : pyval) : bool :=
  match v with PStr _ => true | _ => false end.

(** ** Exceptions *)

Inductive exn :=
| ValidationError (detail : string)  (* rest_framework.serializers *)
| NotFound                           (* rest_framework.exceptions *)
| EmptyPage                          (* django.core.paginator *)
| PageNotAnInteger                   (* django.core.paginator *)
| TypeError
| AttributeError
| ValueError
| OverflowError.

Inductive result (A : Type) :=
| Ok (a : A)
| Raise (e : exn).

Arguments Ok {A} a.
Arguments Raise {A} e.

Definition bind {A B} (c : result A) (f : A -> result B) : result B :=
  match c with
  | Ok a => f a
  | Raise e => Raise e
  end.

Declare Scope py_scope.
Delimit Scope py_scope with py.
Notation "x <- c ;; k" := (bind c (fun x => k))
  (at level 61, c at next level, right associativity) : py_scope.
Notation "c ;;; k" := (bind c (fun _ => k))
  (at level 61, right associativity) : py_scope.

(** ** The regular expressions of [re], as far as the program uses them *)

Module Re.

(** An element of a bracketed set: a range [a-z], literal characters, or
    the class [\d]. *)
Inductive set_item :=
| Range (lo hi : ascii)
| Lits (cs : string)
| Digit.

(** What matches exactly one character: [.] or a set [[...]]. *)
Inductive charset :=
| ANY
| IN (items : list set_item).

(** The pattern syntax used by the program: [^], [$], one character, a
    greedy repetition [c{lo,hi}] of one character ([c*] is
    [MAX_REPEAT c 0 None]), a lookahead [(?=r)] and concatenation. *)
Inductive regex :=
| AT_BEGINNING
| AT_END
| ONE (c : charset)
| MAX_REPEAT (c : charset) (lo : nat) (hi : option nat)
| ASSERT (r : regex)
| CAT (r1 r2 : regex).

Definition newline : N := 10.

Section Matcher.

(** The interpreter's Unicode database: whether a code point above the
    ASCII range is a decimal digit (general category Nd).  In a [str]
    pattern [\d] matches every such character, not only [0-9]. *)
Variable unicode_decimal : N -> bool.

Definition is_decimal (c : N) : bool :=
  if (c <? 128)%N then (48 <=? c)%N && (c <=? 57)%N else unicode_decimal c.

Definition in_item (i : set_item) (c : N) : bool :=
  match i with
  | Range lo hi => (N_of_ascii lo <=? c)%N && (c <=? N_of_ascii hi)%N
  | Lits cs => existsb (N.eqb c) (str cs)
  | Digit => is_decimal c
  end.

(** Without DOTALL, [.] matches anything but a newline. *)
Definition in_charset (cs : charset) (c : N) : bool :=
  match cs with
  | ANY => negb (c =? newline)%N
  | IN items => existsb (fun i => in_item i c) items
  end.

(** Without MULTILINE, [$] matches at the end of the string and just
    before a newline that ends the string. *)
Definition at_end (rest : pystr) : bool :=
  match rest with
  | [] => true
  | [c] => (c =? newline)%N
  | _ => false
  end.

Definition below (hi : option nat) (n : nat) : bool :=
  match hi with
  | None => true
  | Some h => n <? h
  end.

(** Greedy repetition with backtracking: [n] characters taken so far,
    [pos] the position in the subject, [k] the rest of the pattern. *)
Fixpoint repeat_one (test : N -> bool) (lo : nat) (hi : option nat)
    (n pos : nat) (s : pystr) (k : nat -> pystr -> bool) : bool :=
  match s with
  | c :: t =>
      if test c && below hi n
      then repeat_one test lo hi (S n) (S pos) t k || ((lo <=? n) && k pos s)
      else (lo <=? n) && k pos s
  | [] => (lo <=? n) && k pos s
  end.

(** The backtracking matcher, in continuation-passing style: [pos] is the
    number of characters consumed and [s] what is left of the subject. *)
Fixpoint run (r : regex) (pos : nat) (s : pystr)
    (k : nat -> pystr -> bool) : bool :=
  match r with
  | AT_BEGINNING => (pos =? 0) && k pos s
  | AT_END => at_end s && k pos s
  | ONE c =>
      match s with
      | x :: t => in_charset c x && k (S pos) t
      | [] => false
      end
  | MAX_REPEAT c lo hi => repeat_one (in_charset c) lo hi 0 pos s k
  | ASSERT r' => run r' pos s (fun _ _ => true) && k pos s
  | CAT r1 r2 => run r1 pos s (fun pos' s' => run r2 pos' s' k)
  end.

(** [re.match(pattern, string)], as a truth value, on a [str] subject. *)
Definition match_str (r : regex) (s : pystr) : bool :=
  run r 0 s (fun _ _ => true).

(** [re.match(pattern, string)] on any value: a subject that is not a
    string raises [TypeError] ("expected string or bytes-like object"). *)
Definition re_match (r : regex) (v : pyval) : result bool :=
  match v with
  | PStr s => Ok (match_str r s)
  | _ => Raise TypeError
  end.

End Matcher.

Declare Scope re_scope.
Delimit Scope re_scope with re.
Notation "r1 ++> r2" := (CAT r1 r2)
  (at level 60, right associativity) : re_scope.

End Re.

(** ** apps/users/serializers/auth_serializers.py *)

Module AuthSerializers.
Import Re.
Local Open Scope re_scope.
Local Open Scope py_scope.
Local Open Scope string_scope.

(** The declared options of a [serializers.CharField]. *)
Record CharField := {
  max_length : option Z;
  min_length : option Z;
  write_only : bool
}.

(** The two messages the validators raise (the arguments of
    [gettext_lazy]). *)
Definition InvalidPassword : string :=
  "Password must be at least 8 characters long and contain at least one uppercase letter, one lowercase letter, one digit, and one special character".

Definition PasswordMismatch : string := "Passwords do not match".

(** [password != value], where [value] is the cleaned confirmation, a
    [str]: a raw value of another type is never equal to it. *)
Definition differs (password : pyval) (value : pystr) : bool :=
  match password with
  | PStr p => negb (pystr_eqb p value)
  | _ => true
  end.

(** [self.get_initial()]: the raw value of every field the request body
    supplies, keyed by field name. *)
Record Serializer := { get_initial : dict }.

Module UserRegistrationSerializer.

Definition password : CharField :=
  {| max_length := Some 128%Z; min_length := Some 8%Z; write_only := true |}.

Definition password_confirmation : CharField :=
  {| max_length := Some 128%Z; min_length := Some 8%Z; write_only := true |}.

(** [[@$!%*?&#^()\-_=+{};:,<.>]] *)
Definition symbols : set_item := Lits "@$!%*?&#^()-_=+{};:,<.>".

(** [^(?=.*[a-z])(?=.*[A-Z])(?=.*\d)(?=.*[@$!%*?&#^()\-_=+{};:,<.>])[A-Za-z\d@$!%*?&#^()\-_=+{};:,<.>]{8,16}$] *)
Definition password_regex : regex :=
  AT_BEGINNING
  ++> ASSERT (MAX_REPEAT ANY 0 None ++> ONE (IN [Range "a" "z"]))
  ++> ASSERT (MAX_REPEAT ANY 0 None ++> ONE (IN [Range "A" "Z"]))
  ++> ASSERT (MAX_REPEAT ANY 0 None ++> ONE (IN [Digit]))
  ++> ASSERT (MAX_REPEAT ANY 0 None ++> ONE (IN [symbols]))
  ++> MAX_REPEAT (IN [Range "A" "Z"; Range "a" "z"; Digit; symbols])
        8 (Some 16)
  ++> AT_END.

Section Validate.
Variable unicode_decimal : N -> bool.

Definition validate_password_confirmation (self : Serializer)
    (value : pystr) : result pystr :=
  let password := dict_get (get_initial self) "password" in
  m <- re_match unicode_decimal password_regex password ;;
  if negb m then Raise (ValidationError InvalidPassword)
  else if differs password value then Raise (ValidationError PasswordMismatch)
  else Ok value.

End Validate.

(** [Meta.fields] *)
Definition fields : list string :=
  ["first_name"; "last_name"; "email"; "username"; "password";
   "password_confirmation"].

(** How a call of [create] ends: with the user [create_user] made, with
    the [KeyError] of [pop], or with what [create_user] raised. *)
Inductive created (User Exc : Type) :=
| Created (user : User)
| KeyError (key : string)
| CreateUserRaised (e : Exc).

Arguments Created {User Exc} user.
Arguments KeyError {User Exc} key.
Arguments CreateUserRaised {User Exc} e.

Section Create.
(** [User.objects.create_user], by the keyword arguments it is given:
    the user, or the exception it raises. *)
Variables User Exc : Type.
Variable create_user : dict -> User + Exc.

(** [create] changes [validated_data] in place: the dictionary after the
    call is returned beside the outcome. *)
Definition create (validated_data : dict) : dict * created User Exc :=
  match dict_pop validated_data "password_confirmation" with
  | None => (validated_data, KeyError "password_confirmation")
  | Some (_, validated_data) =>
      (validated_data,
       match create_user validated_data with
       | inl user => Created user
       | inr e => CreateUserRaised e
       end)
  end.

End Create.
End UserRegistrationSerializer.

Module LoginResponseSerializer.

(** [obj] is the dictionary the login view builds. *)
Definition get_expires_in (obj : dict) : pyval := dict_get obj "expires_in".

End LoginResponseSerializer.

Module PasswordResetConfirmationSerializer.

Definition otp : CharField :=
  {| max_length := None; min_length := None; write_only := false |}.

Definition password : CharField :=
  {| max_length := Some 128%Z; min_length := Some 8%Z; write_only := false |}.

Definition password_confirmation : CharField :=
  {| max_length := None; min_length := None; write_only := false |}.

Definition validate_password_confirmation (self : Serializer)
    (value : pystr) : result pystr :=
  let password := dict_get (get_initial self) "password" in
  if differs password value
  then Raise (ValidationError PasswordMismatch)
  else Ok value.

End PasswordResetConfirmationSerializer.

End AuthSerializers.

(** ** mixins/api_response_mixin.py *)

Module APIResponseMixin.
Local Open Scope string_scope.
Local Open Scope Z_scope.
Local Open Scope py_scope.

(** [rest_framework.status] *)
Definition HTTP_200_OK : Z := 200.
Definition HTTP_400_BAD_REQUEST : Z := 400.

(** A [rest_framework.response.Response]: its data and its HTTP status. *)
Record Response := {
  data : pyval;
  status_code : Z
}.

(** [Response(data, status=status)]: the constructor of Django's
    [HttpResponseBase] refuses a status outside 100..599 with
    [ValueError]. *)
Definition Response_init (data : pyval) (status : Z) : result Response :=
  if (100 <=? status) && (status <=? 599)
  then Ok {| data := data; status_code := status |}
  else Raise ValueError.

(** An argument with a default value: [None] when the call omits it. *)
Definition default {A} (d : A) (arg : option A) : A :=
  match arg with
  | Some a => a
  | None => d
  end.

Definition success (message : pyval) (data : option pyval)
    (status_code : option Z) : result Response :=
  let data := default PNone data in
  let status_code := default HTTP_200_OK status_code in
  let response_data := PDict [
    ("status", PBool true);
    ("message", message);
    ("data", data)
  ] in
  Response_init response_data status_code.

Definition error (message : pyval) (errors : option pyval)
    (status_code : option Z) : result Response :=
  let errors := default PNone errors in
  let status_code := default HTTP_400_BAD_REQUEST status_code in
  let response_data := PDict [
    ("status", PBool false);
    ("message", message);
    ("errors", if isinstance_str errors then PList [errors] else errors)
  ] in
  Response_init response_data status_code.

(** *** [math.ceil(a / b)]

    The quotient of two Python integers is the binary64 float nearest to
    the exact quotient (ties to the even mantissa), not the exact
    quotient: it loses the low bits of a quotient above 2^53, becomes
    zero below 2^-1075, and raises [OverflowError] from 2^1024 on. *)

(** [n / d] rounded to the nearest integer, ties to even, for [0 < d]. *)
Definition rne_div (n d : Z) : Z :=
  let q := n / d in
  let r := n mod d in
  if 2 * r <? d then q
  else if d <? 2 * r then q + 1
  else if Z.even q then q else q + 1.

(** The exponent of the last mantissa bit of the float of [a / b], for
    [0 < a] and [0 < b]: 52 below the exponent of the quotient, and
    -1074 for a subnormal. *)
Definition float_exponent (a b : Z) : Z :=
  let e0 := Z.log2 a - Z.log2 b in
  let E := if b * 2 ^ Z.max 0 e0 <=? a * 2 ^ Z.max 0 (- e0) then e0
           else e0 - 1 in
  Z.max (E - 52) (-1074).

(** The mantissa of that float: the float is [mantissa * 2 ^ e]. *)
Definition float_mantissa (a b e : Z) : Z :=
  rne_div (a * 2 ^ Z.max 0 (- e)) (b * 2 ^ Z.max 0 e).

(** [math.ceil(a / b)] for integers [1 <= a] and [b <> 0]. *)
Definition ceil_true_divide (a b : Z) : result Z :=
  let e := float_exponent a (Z.abs b) in
  let m := float_mantissa a (Z.abs b) e in
  if 2 ^ 1024 * 2 ^ Z.max 0 (- e) <=? m * 2 ^ Z.max 0 e
  then Raise OverflowError
  else if 0 <? b
       then Ok (if 0 <=? e then m * 2 ^ e else - ((- m) / 2 ^ (- e)))
       else Ok (if 0 <=? e then - (m * 2 ^ e) else - (m / 2 ^ (- e))).

(** *** The collaborators of [paginated_response]

    [paginated_response] is written against Django's [QuerySet] and
    [django.core.paginator.Paginator] and against
    [rest_framework.pagination.PageNumberPagination], which the module
    imports; what follows is the part of those libraries it runs
    through, after their sources (Django 4.1 and later; for a positive
    page size earlier versions behave the same). *)

Section Pagination.

(** The rows of the collection and their [created_at] column. *)
Variable Row : Type.
Variable created_at : Row -> Z.

(** [rest_framework.utils.urls]: the URL with the query parameter set to
    a page number, and the URL without the parameter. *)
Variable replace_query_param : pystr -> string -> Z -> pystr.
Variable remove_query_param : pystr -> string -> pystr.

(** A queryset as one request finds it: whether an ordering is set on
    it, and its rows in the order the database scans them for this
    request.  Another request evaluates the queryset anew, and rows that
    the ordering does not tell apart may then come in another order. *)
Record QuerySet := {
  ordered : bool;
  rows : list Row
}.

Fixpoint insert_by (x : Row) (l : list Row) : list Row :=
  match l with
  | [] => [x]
  | y :: l' =>
      if created_at x <=? created_at y then x :: l else y :: insert_by x l'
  end.

(** [queryset.order_by('created_at')]: ascending in [created_at]; rows
    with equal keys come in the order of the scan, which is the
    database's choice for the request. *)
Definition order_by_created_at (q : QuerySet) : QuerySet :=
  {| ordered := true; rows := fold_right insert_by [] (rows q) |}.

(** The value of the [page] query parameter, by how the paginator reads
    it: absent (page 1 is meant), the string [last], a string that
    [int()] converts, or anything else. *)
Inductive page_param :=
| page_absent
| page_last
| page_int (n : Z)
| page_invalid.

Record Request := {
  build_absolute_uri : pystr;
  query_page : page_param
}.

(** The ceiling of the exact quotient [a / b], for [0 < b]. *)
Definition ceil_div (a b : Z) : Z := - ((- a) / b).

(** [Paginator(object_list, per_page)], with [orphans=0] and
    [allow_empty_first_page=True]. *)
Record Paginator := {
  object_list : list Row;
  per_page : Z
}.

Definition count (p : Paginator) : Z :=
  Z.of_nat (List.length (object_list p)).

(** [Paginator.num_pages]: [ceil(hits / self.per_page)]. *)
Definition num_pages (p : Paginator) : result Z :=
  let hits := Z.max 1 (count p - 0) in
  ceil_true_divide hits (per_page p).

(** [Paginator.validate_number]; [number] is [None] when [int()] refuses
    the parameter.  The number of pages is looked at only for a number
    that is at least 1. *)
Definition validate_number (p : Paginator) (number : option Z) : result Z :=
  match number with
  | None => Raise PageNotAnInteger
  | Some n =>
      if n <? 1 then Raise EmptyPage
      else
        pages <- num_pages p ;;
        if n >? pages then Raise EmptyPage else Ok n
  end.

(** A [Page]: its 1-based number and its rows. *)
Record Page := {
  number : Z;
  page_rows : list Row
}.

(** [object_list[bottom:top]] for [0 <= bottom]. *)
Definition slice (l : list Row) (bottom top : Z) : list Row :=
  firstn (Z.to_nat (top - bottom)) (skipn (Z.to_nat bottom) l).

Definition page (p : Paginator) (number : option Z) : result Page :=
  n <- validate_number p number ;;
  let bottom := (n - 1) * per_page p in
  let top := bottom + per_page p in
  let top := if top + 0 >=? count p then count p else top in
  Ok {| number := n; page_rows := slice (object_list p) bottom top |}.

Definition has_next (p : Paginator) (pg : Page) : result bool :=
  pages <- num_pages p ;; Ok (number pg <? pages).

Definition has_previous (pg : Page) : bool := number pg >? 1.

(** [PageNumberPagination.get_page_number] *)
Definition get_page_number (request : Request) (p : Paginator)
    : result (option Z) :=
  match query_page request with
  | page_absent => Ok (Some 1)
  | page_last => pages <- num_pages p ;; Ok (Some pages)
  | page_int n => Ok (Some n)
  | page_invalid => Ok None
  end.

(** [PageNumberPagination.paginate_queryset]: the page, or [None] when
    the page size is zero (the method returns before it sets
    [self.page]).  An [InvalidPage] of the paginator becomes [NotFound];
    any other exception passes through. *)
Definition paginate_queryset (page_size : Z) (queryset : QuerySet)
    (request : Request) : result (option (Paginator * Page)) :=
  if page_size =? 0 then Ok None
  else
    let paginator := {| object_list := rows queryset; per_page := page_size |} in
    page_number <- get_page_number request paginator ;;
    match page paginator page_number with
    | Ok pg => Ok (Some (paginator, pg))
    | Raise EmptyPage => Raise NotFound
    | Raise PageNotAnInteger => Raise NotFound
    | Raise e => Raise e
    end.

Definition get_next_link (request : Request) (p : Paginator) (pg : Page)
    : result pyval :=
  next <- has_next p pg ;;
  if negb next then Ok PNone
  else Ok (PStr (replace_query_param (build_absolute_uri request) "page"
                   (number pg + 1))).

Definition get_previous_link (request : Request) (pg : Page) : pyval :=
  if negb (has_previous pg) then PNone
  else
    let page_number := number pg - 1 in
    if page_number =? 1
    then PStr (remove_query_param (build_absolute_uri request) "page")
    else PStr (replace_query_param (build_absolute_uri request) "page"
                 page_number).

(** *** [paginated_response]

    [queryset] is [None] when the caller has no queryset to pass;
    [serializer_class] is given by what it makes of one row. *)
Definition paginated_response (request : Request)
    (queryset : option QuerySet) (serializer_class : Row -> pyval)
    (message : option pyval) (page_size : option Z)
    (status_code : option Z) : result Response :=
  let message := default (PStr (str "Success")) message in
  let page_size := default 10 page_size in
  let status_code := default HTTP_200_OK status_code in
  match queryset with
  | None => Raise AttributeError
  | Some queryset =>
      let queryset :=
        if negb (ordered queryset) then order_by_created_at queryset
        else queryset in
      paginated <- paginate_queryset page_size queryset request ;;
      match paginated with
      | None => Raise AttributeError
      | Some (paginator, pg) =>
          let data := PList (map serializer_class (page_rows pg)) in
          next <- get_next_link request paginator pg ;;
          let previous := get_previous_link request pg in
          total_pages <- num_pages paginator ;;
          let response_data := PDict [
            ("status", PBool true);
            ("message", message);
            ("data", data);
            ("status_code", PInt status_code);
            ("pagination", PDict [
               ("next", next);
               ("previous", previous);
               ("count", PInt (count paginator));
               ("current_page", PInt (number pg));
               ("total_pages", PInt total_pages)
             ])
          ] in
          Response_init response_data HTTP_200_OK
      end
  end.

End Pagination.

End APIResponseMixin.

(** * Vocabulary of the properties *)

(** The upper bound of a repetition, as a proposition. *)
Definition within (hi : option nat) (m : nat) : Prop :=
  match hi with
  | None => True
  | Some h => m <= h
  end.

(** The string without the newline that ends it, if one does. *)
Fixpoint chomp (s : pystr) : pystr :=
  match s with
  | [] => []
  | c :: t =>
      match t with
      | [] => if (c =? Re.newline)%N then [] else [c]
      | _ :: _ => c :: chomp t
      end
  end.

Module Rule.
Local Open Scope N_scope.

(** The character classes the password policy names. *)
Definition lowercase (c : N) : bool :=
  (N_of_ascii "a" <=? c) && (c <=? N_of_ascii "z").

Definition uppercase (c : N) : bool :=
  (N_of_ascii "A" <=? c) && (c <=? N_of_ascii "Z").

Definition symbol (c : N) : bool :=
  existsb (N.eqb c) (str "@$!%*?&#^()-_=+{};:,<.>").

(** The set of the pattern's final repetition. *)
Definition body : Re.charset :=
  Re.IN [Re.Range "A" "Z"; Re.Range "a" "z"; Re.Digit;
         AuthSerializers.UserRegistrationSerializer.symbols].

Section Digits.
Variable unicode_decimal : N -> bool.

Definition digit (c : N) : bool := Re.is_decimal unicode_decimal c.

(** The characters a password may be made of. *)
Definition allowed (c : N) : bool :=
  uppercase c || lowercase c || digit c || symbol c.

(** The composed password rule in the words of the specification: length
    8 to 16, with at least one lowercase letter, one uppercase letter, one
    digit and one symbol of the set. *)
Definition composed_rule (s : pystr) : bool :=
  (8 <=? List.length s)%nat && (List.length s <=? 16)%nat &&
  existsb lowercase s && existsb uppercase s &&
  existsb digit s && existsb symbol s.

End Digits.
End Rule.

(** A Unicode database with no decimal digit above the ASCII range: enough
    to run the validators on ASCII passwords. *)
Definition ascii_digits_only : N -> bool := fun _ => false.

(** A registration request body with the given raw password. *)
Definition with_password (p : pystr) : AuthSerializers.Serializer :=
  {| AuthSerializers.get_initial := [("password"%string, PStr p)] |}.

(** The entry [key] of the [pagination] block of a response body. *)
Definition pagination (r : APIResponseMixin.Response) (key : string) : pyval :=
  item (item (APIResponseMixin.data r) "pagination") key.

(** A dictionary value with one entry set. *)
Definition with_item (v : pyval) (key : string) (x : pyval) : pyval :=
  match v with
  | PDict d => PDict (dict_set d key x)
  | _ => v
  end.

(** The paginator [paginated_response] builds for a queryset: over its
    rows, ordered by [created_at] unless it is ordered already. *)
Definition paginator_for {Row} (created_at : Row -> Z) (page_size : Z)
    (q : APIResponseMixin.QuerySet Row) : APIResponseMixin.Paginator Row :=
  {| APIResponseMixin.object_list :=
       APIResponseMixin.rows
         (if negb (APIResponseMixin.ordered q)
          then APIResponseMixin.order_by_created_at created_at q
          else q);
     APIResponseMixin.per_page := page_size |}.

(** A stand-in for the URL helpers where the links do not matter. *)
Definition same_url_replace (url : pystr) (_ : string) (_ : Z) : pystr := url.
Definition same_url_remove (url : pystr) (_ : string) : pystr := url.

(** A request for the collection at [/items/], with the given [page]
    parameter. *)
Definition request_for (p : APIResponseMixin.page_param)
    : APIResponseMixin.Request :=
  {| APIResponseMixin.build_absolute_uri := str "http://testserver/items/";
     APIResponseMixin.query_page := p |}.

(** Twenty-five rows, created in the reverse of their order. *)
Definition twenty_five : APIResponseMixin.QuerySet Z :=
  {| APIResponseMixin.ordered := false;
     APIResponseMixin.rows := map Z.of_nat (rev (seq 0 25)) |}.

(** A Unicode database whose only decimal digits above the ASCII range
    are the Arabic-Indic ones, U+0660 to U+0669. *)
Definition arabic_indic_digits : N -> bool :=
  fun c => ((1632 <=? c) && (c <=? 1641))%N.

(** The length validators a [CharField] declares, on a string. *)
Definition within_bounds (f : AuthSerializers.CharField) (s : pystr) : Prop :=
  match AuthSerializers.min_length f with
  | Some lo => (lo <= Z.of_nat (List.length s))%Z
  | None => True
  end /\
  match AuthSerializers.max_length f with
  | Some hi => (Z.of_nat (List.length s) <= hi)%Z
  | None => True
  end.

(** The request with its [page] parameter set to [n]. *)
Definition with_page (request : APIResponseMixin.Request) (n : Z)
    : APIResponseMixin.Request :=
  {| APIResponseMixin.build_absolute_uri :=
       APIResponseMixin.build_absolute_uri request;
     APIResponseMixin.query_page := APIResponseMixin.page_int n |}.

(** The [data] list of a response, empty when there is none. *)
Definition page_items (r : result APIResponseMixin.Response) : list pyval :=
  match r with
  | Ok r =>
      match item (APIResponseMixin.data r) "data" with
      | PList l => l
      | _ => []
      end
  | Raise _ => []
  end.

(** The rows of page [n] of a paginator: from row [(n - 1) * per_page]
    up to row [n * per_page], or up to the last one. *)
Definition rows_of {Row} (p : APIResponseMixin.Paginator Row) (n : Z)
    : list Row :=
  APIResponseMixin.slice (APIResponseMixin.object_list p)
    ((n - 1) * APIResponseMixin.per_page p)
    (Z.min (n * APIResponseMixin.per_page p) (APIResponseMixin.count p)).

(** The page number a request asks for, [pages] being the number of
    pages: [None] when the [page] parameter is no number. *)
Definition requested_page (request : APIResponseMixin.Request) (pages : Z)
    : option Z :=
  match APIResponseMixin.query_page request with
  | APIResponseMixin.page_absent => Some 1%Z
  | APIResponseMixin.page_last => Some pages
  | APIResponseMixin.page_int n => Some n
  | APIResponseMixin.page_invalid => None
  end.

(** * Properties *)

(** ** Dictionaries *)

Lemma dict_get_absent (d : dict) (key : string) :
  dict_has d key = false -> dict_get d key = PNone.
Proof.
  induction d as [|[k v] d IH]; simpl; [reflexivity|].
  destruct (String.eqb k key); simpl; [discriminate|exact IH].
Qed.

Lemma dict_get_set_same (d : dict) (key : string) (v : pyval) :
  dict_get (dict_set d key v) key = v.
Proof.
  induction d as [|[k w] d IH]; simpl.
  - now rewrite String.eqb_refl.
  - destruct (String.eqb k key) eqn:E; simpl; rewrite E; auto.
Qed.

Lemma pystr_eqb_eq (a b : pystr) : pystr_eqb a b = true <-> a = b.
Proof.
  unfold pystr_eqb. destruct (list_eq_dec N.eq_dec a b); split; congruence.
Qed.

Lemma forallb_eq {A} (f g : A -> bool) (l : list A) :
  (forall x, f x = g x) -> forallb f l = forallb g l.
Proof.
  intros H. induction l as [|x l IH]; simpl; [reflexivity|].
  now rewrite H, IH.
Qed.

Lemma existsb_eq {A} (f g : A -> bool) (l : list A) :
  (forall x, f x = g x) -> existsb f l = existsb g l.
Proof.
  intros H. induction l as [|x l IH]; simpl; [reflexivity|].
  now rewrite H, IH.
Qed.

Lemma pystr_eqb_refl (a : pystr) : pystr_eqb a a = true.
Proof. now apply pystr_eqb_eq. Qed.

(** ** The matcher *)

Module ReFacts.
Import Re.

Section Facts.
Variable unicode_decimal : N -> bool.

Lemma below_within (hi : option nat) (n : nat) :
  below hi n = true <-> within hi (S n).
Proof.
  destruct hi as [h|]; simpl; [|tauto].
  rewrite Nat.ltb_lt. lia.
Qed.

Lemma within_le (hi : option nat) (m m' : nat) :
  m <= m' -> within hi m' -> within hi m.
Proof. destruct hi; simpl; lia. Qed.

(** A repetition succeeds exactly when the subject splits into a prefix
    of characters of the class, of an admissible length, and a rest the
    continuation accepts. *)
Lemma repeat_one_spec (test : N -> bool) (lo : nat) (hi : option nat)
    (k : nat -> pystr -> bool) (s : pystr) :
  forall n pos,
    repeat_one test lo hi n pos s k = true <->
    exists pre post,
      s = pre ++ post /\ forallb test pre = true /\
      lo <= n + List.length pre /\
      (pre = [] \/ within hi (n + List.length pre)) /\
      k (pos + List.length pre) post = true.
Proof.
  induction s as [|c t IH]; intros n pos; simpl.
  - rewrite andb_true_iff, Nat.leb_le. split.
    + intros [Hlo Hk]. exists [], []. simpl.
      rewrite !Nat.add_0_r. repeat split; auto.
    + intros (pre & post & E & _ & Hlo & _ & Hk).
      symmetry in E. apply app_eq_nil in E as [-> ->].
      simpl in *. rewrite !Nat.add_0_r in *. auto.
  - assert (Hstop : (lo <=? n) && k pos (c :: t) = true ->
        exists pre post,
          c :: t = pre ++ post /\ forallb test pre = true /\
          lo <= n + List.length pre /\
          (pre = [] \/ within hi (n + List.length pre)) /\
          k (pos + List.length pre) post = true).
    { rewrite andb_true_iff, Nat.leb_le. intros [Hlo Hk].
      exists [], (c :: t). simpl. rewrite !Nat.add_0_r.
      repeat split; auto. }
    destruct (test c && below hi n) eqn:Hc.
    + apply andb_true_iff in Hc as [Htest Hbelow].
      rewrite orb_true_iff, IH. split.
      * intros [(pre & post & -> & Hall & Hlo & Hhi & Hk)|H];
          [|now apply Hstop].
        exists (c :: pre), post. simpl. rewrite Htest, Hall.
        rewrite !Nat.add_succ_r.
        split; [reflexivity|]. split; [reflexivity|].
        split; [simpl in Hlo; lia|]. split; [|exact Hk].
        right. destruct Hhi as [->|Hhi]; [|exact Hhi].
        simpl. rewrite Nat.add_0_r. now apply below_within.
      * intros ([|c' pre] & post & E & Hall & Hlo & Hhi & Hk); simpl in *.
        -- right. rewrite !Nat.add_0_r in *. subst post.
           rewrite andb_true_iff, Nat.leb_le. auto.
        -- left. injection E as <- ->.
           apply andb_true_iff in Hall as [_ Hall].
           rewrite !Nat.add_succ_r in *.
           exists pre, post.
           split; [reflexivity|]. split; [exact Hall|].
           split; [simpl; lia|]. split; [|exact Hk].
           right. destruct Hhi as [Hhi|Hhi]; [discriminate|exact Hhi].
    + split; [exact Hstop|].
      intros ([|c' pre] & post & E & Hall & Hlo & Hhi & Hk); simpl in *.
      * rewrite !Nat.add_0_r in *. subst post.
        rewrite andb_true_iff, Nat.leb_le. auto.
      * exfalso. injection E as <- ->.
        apply andb_true_iff in Hall as [Htest _].
        destruct Hhi as [Hhi|Hhi]; [discriminate|].
        rewrite Htest in Hc. simpl in Hc.
        assert (below hi n = true); [|congruence].
        apply below_within. eapply within_le; [|exact Hhi]. lia.
Qed.

(** The lookahead [(?=.*[items])]: some character of the set occurs
    before the first newline. *)
Lemma lookahead_spec (items : list set_item) (pos : nat) (s : pystr) :
  run unicode_decimal
      (CAT (MAX_REPEAT ANY 0 None) (ONE (IN items))) pos s
      (fun _ _ => true) = true <->
  exists pre c post,
    s = pre ++ c :: post /\
    forallb (in_charset unicode_decimal ANY) pre = true /\
    in_charset unicode_decimal (IN items) c = true.
Proof.
  cbn [run]. rewrite repeat_one_spec. split.
  - intros (pre & [|c post] & -> & Hall & _ & _ & Hk); [discriminate|].
    rewrite andb_true_r in Hk. now exists pre, c, post.
  - intros (pre & c & post & -> & Hall & Hc).
    exists pre, (c :: post). rewrite Hc. simpl.
    repeat split; auto. lia.
Qed.

End Facts.
End ReFacts.

(** ** The registration password pattern *)

Module PasswordRegex.
Import Re ReFacts Rule AuthSerializers.
Import UserRegistrationSerializer.

Lemma chomp_snoc (l : pystr) : chomp (l ++ [newline]) = l.
Proof.
  induction l as [|c l IH]; [reflexivity|].
  destruct l as [|d l]; [reflexivity|].
  change (c :: chomp ((d :: l) ++ [newline]) = c :: d :: l).
  now rewrite IH.
Qed.

Lemma chomp_no_newline (l : pystr) :
  forallb (fun c => negb (c =? newline)%N) l = true -> chomp l = l.
Proof.
  induction l as [|c l IH]; [reflexivity|].
  intros H. apply andb_true_iff in H as [Hc Hl].
  destruct l as [|d l].
  - simpl. apply negb_true_iff in Hc. now rewrite Hc.
  - change (c :: chomp (d :: l) = c :: d :: l). now rewrite (IH Hl).
Qed.

(** A string is its [chomp] followed by what [$] accepts. *)
Lemma chomp_split (s : pystr) :
  exists post, s = chomp s ++ post /\ at_end post = true.
Proof.
  induction s as [|c s (post & E & H)].
  - now exists [].
  - destruct s as [|d s].
    + simpl. destruct (c =? newline)%N eqn:Ec.
      * exists [c]. simpl. now rewrite Ec.
      * now exists [].
    + change (chomp (c :: d :: s)) with (c :: chomp (d :: s)).
      exists post. split; [|exact H].
      rewrite <- app_comm_cons, <- E. reflexivity.
Qed.

Lemma at_end_cases (post : pystr) :
  at_end post = true -> post = [] \/ post = [newline].
Proof.
  destruct post as [|c [|d post]]; simpl; auto; [|discriminate].
  intros H. apply N.eqb_eq in H. subst. now right.
Qed.

Section Pattern.
Variable unicode_decimal : N -> bool.

Lemma in_body (c : N) :
  in_charset unicode_decimal body c = allowed unicode_decimal c.
Proof.
  unfold allowed, body. cbn [in_charset existsb in_item].
  now rewrite orb_false_r, !orb_assoc.
Qed.

Lemma allowed_not_newline (c : N) :
  allowed unicode_decimal c = true -> negb (c =? newline)%N = true.
Proof.
  destruct (c =? newline)%N eqn:E; [|reflexivity].
  apply N.eqb_eq in E. subst. discriminate.
Qed.

Lemma forallb_allowed_no_newline (l : pystr) :
  forallb (allowed unicode_decimal) l = true ->
  forallb (fun c => negb (c =? newline)%N) l = true.
Proof.
  rewrite !forallb_forall. intros H c Hc.
  apply allowed_not_newline. auto.
Qed.

(** The final repetition and [$]: the string, without a newline that
    ends it, is 8 to 16 allowed characters. *)
Lemma body_spec (s : pystr) :
  repeat_one (in_charset unicode_decimal body) 8 (Some 16) 0 0 s
    (fun _ s' => at_end s' && true) = true <->
  forallb (allowed unicode_decimal) (chomp s) = true /\
  8 <= List.length (chomp s) <= 16.
Proof.
  rewrite repeat_one_spec. split.
  - intros (pre & post & -> & Hall & Hlo & Hhi & Hk).
    rewrite andb_true_r in Hk. simpl in Hlo, Hhi.
    assert (Hpre : forallb (allowed unicode_decimal) pre = true).
    { rewrite <- Hall. apply forallb_eq.
      intros c. symmetry. apply in_body. }
    assert (E : chomp (pre ++ post) = pre).
    { destruct (at_end_cases _ Hk) as [-> | ->].
      - rewrite app_nil_r. apply chomp_no_newline.
        now apply forallb_allowed_no_newline.
      - apply chomp_snoc. }
    rewrite E. split; [exact Hpre|].
    destruct Hhi as [-> | Hhi]; simpl in *; lia.
  - intros (Hall & Hlen).
    destruct (chomp_split s) as (post & E & Hend).
    exists (chomp s), post. rewrite Hend. simpl.
    split; [exact E|]. split.
    { rewrite <- Hall. apply forallb_eq. intros c. apply in_body. }
    split; [lia|]. split; [right; lia|reflexivity].
Qed.

(** A lookahead for a class that excludes the newline, on a string whose
    [chomp] has no newline, finds its character in the [chomp]. *)
Lemma lookahead_chomp (items : list set_item) (s : pystr) :
  in_charset unicode_decimal (IN items) newline = false ->
  forallb (fun c => negb (c =? newline)%N) (chomp s) = true ->
  run unicode_decimal (CAT (MAX_REPEAT ANY 0 None) (ONE (IN items))) 0 s
    (fun _ _ => true) = true <->
  existsb (in_charset unicode_decimal (IN items)) (chomp s) = true.
Proof.
  intros Hnl Hline. rewrite lookahead_spec, existsb_exists.
  destruct (chomp_split s) as (post & E & Hend). split.
  - intros (pre & c & rest & Es & _ & Hc).
    exists c. split; [|exact Hc].
    assert (Hin : In c s) by (rewrite Es; apply in_elt).
    rewrite E in Hin. apply in_app_or in Hin as [Hin|Hin]; [exact Hin|].
    exfalso. destruct (at_end_cases _ Hend) as [-> | ->]; simpl in Hin.
    + exact Hin.
    + destruct Hin as [<-|[]]. congruence.
  - intros (c & Hin & Hc).
    apply in_split in Hin as (l1 & l2 & El).
    exists l1, c, (l2 ++ post). split.
    + rewrite E at 1. rewrite El, <- app_assoc. reflexivity.
    + split; [|exact Hc].
      rewrite El, forallb_app in Hline.
      now apply andb_true_iff in Hline as [Hline _].
Qed.

Lemma run_bol (r : regex) (s : pystr) (k : nat -> pystr -> bool) :
  run unicode_decimal (CAT AT_BEGINNING r) 0 s k = run unicode_decimal r 0 s k.
Proof. reflexivity. Qed.

Lemma run_assert (r rest : regex) (pos : nat) (s : pystr)
    (k : nat -> pystr -> bool) :
  run unicode_decimal (CAT (ASSERT r) rest) pos s k =
  run unicode_decimal r pos s (fun _ _ => true) &&
  run unicode_decimal rest pos s k.
Proof. reflexivity. Qed.

Lemma single_item (i : set_item) (c : N) :
  in_charset unicode_decimal (IN [i]) c = in_item unicode_decimal i c.
Proof. simpl. apply orb_false_r. Qed.

(** What the pattern accepts: the string, without a newline that ends
    it, satisfies the composed rule and consists of allowed characters
    only. *)
Theorem password_regex_spec (s : pystr) :
  match_str unicode_decimal password_regex s =
  composed_rule unicode_decimal (chomp s) && forallb (allowed unicode_decimal) (chomp s).
Proof.
  apply eq_true_iff_eq.
  unfold match_str, password_regex.
  rewrite run_bol, !run_assert.
  change (run unicode_decimal
            (CAT (MAX_REPEAT (IN [Range "A" "Z"; Range "a" "z"; Digit; symbols])
                    8 (Some 16)) AT_END) 0 s (fun _ _ => true))
    with (repeat_one (in_charset unicode_decimal body) 8 (Some 16) 0 0 s
            (fun _ s' => at_end s' && true)).
  unfold composed_rule.
  rewrite !andb_true_iff, body_spec, !Nat.leb_le.
  assert (Hlook : forallb (allowed unicode_decimal) (chomp s) = true ->
    forall (i : set_item) (f : N -> bool),
      in_charset unicode_decimal (IN [i]) newline = false ->
      (forall c, in_item unicode_decimal i c = f c) ->
      (run unicode_decimal (CAT (MAX_REPEAT ANY 0 None) (ONE (IN [i]))) 0 s
         (fun _ _ => true) = true <-> existsb f (chomp s) = true)).
  { intros Hall i f Hnl Hf.
    rewrite lookahead_chomp;
      [|exact Hnl|now apply forallb_allowed_no_newline].
    rewrite (existsb_eq (in_charset unicode_decimal (IN [i])) f); [tauto|].
    intros c. rewrite single_item. apply Hf. }
  split.
  - intros (H1 & H2 & H3 & H4 & Hall & Hlen).
    rewrite (Hlook Hall (Range "a" "z") lowercase) in H1
      by (reflexivity || (intros; reflexivity)).
    rewrite (Hlook Hall (Range "A" "Z") uppercase) in H2
      by (reflexivity || (intros; reflexivity)).
    rewrite (Hlook Hall Digit (digit unicode_decimal)) in H3
      by (reflexivity || (intros; reflexivity)).
    rewrite (Hlook Hall symbols symbol) in H4
      by (reflexivity || (intros; reflexivity)).
    intuition.
  - intros ((((((Hlo & Hhi) & H1) & H2) & H3) & H4) & Hall).
    rewrite (Hlook Hall (Range "a" "z") lowercase)
      by (reflexivity || (intros; reflexivity)).
    rewrite (Hlook Hall (Range "A" "Z") uppercase)
      by (reflexivity || (intros; reflexivity)).
    rewrite (Hlook Hall Digit (digit unicode_decimal))
      by (reflexivity || (intros; reflexivity)).
    rewrite (Hlook Hall symbols symbol)
      by (reflexivity || (intros; reflexivity)).
    intuition.
Qed.

End Pattern.
End PasswordRegex.

(** ** [UserRegistrationSerializer.validate_password_confirmation] *)

Module RegistrationFacts.
Import Re Rule AuthSerializers PasswordRegex.
Import UserRegistrationSerializer.
Local Open Scope string_scope.

Section Registration.
Variable unicode_decimal : N -> bool.

(** The validator, outcome by outcome. *)
Lemma registration_validate_cases (self : Serializer) (value : pystr) :
  validate_password_confirmation unicode_decimal self value =
  match dict_get (get_initial self) "password" with
  | PStr p =>
      if match_str unicode_decimal password_regex p
      then if pystr_eqb p value then Ok value
           else Raise (ValidationError PasswordMismatch)
      else Raise (ValidationError InvalidPassword)
  | _ => Raise TypeError
  end.
Proof.
  unfold validate_password_confirmation.
  destruct (dict_get (get_initial self) "password"); try reflexivity.
  simpl. destruct (match_str unicode_decimal password_regex s); simpl;
    [|reflexivity].
  now destruct (pystr_eqb s value).
Qed.

(** It accepts exactly a raw password that is a string, matches the
    pattern and equals the confirmation; it never returns anything but
    the confirmation. *)
Lemma validate_accepts_iff (self : Serializer) (value v : pystr) :
  validate_password_confirmation unicode_decimal self value = Ok v <->
  v = value /\
  dict_get (get_initial self) "password" = PStr value /\
  match_str unicode_decimal password_regex value = true.
Proof.
  rewrite registration_validate_cases.
  destruct (dict_get (get_initial self) "password") as [| | |p| |];
    try (split; [discriminate|intros (_ & H & _); discriminate]).
  destruct (match_str unicode_decimal password_regex p) eqn:Hm.
  - destruct (pystr_eqb p value) eqn:He.
    + apply pystr_eqb_eq in He. subst p. split.
      * intros H. injection H as <-. auto.
      * intros (-> & _ & _). reflexivity.
    + split; [discriminate|]. intros (_ & H & _). injection H as ->.
      now rewrite pystr_eqb_refl in He.
  - split; [discriminate|]. intros (_ & H & Hv). injection H as ->.
    congruence.
Qed.

(** A raw password that is a string is rejected with the rule it
    breaks: the composed rule first, the confirmation second. *)
Lemma validate_rejects_with_rule (self : Serializer) (value p : pystr) :
  dict_get (get_initial self) "password" = PStr p ->
  (match_str unicode_decimal password_regex p = false ->
   validate_password_confirmation unicode_decimal self value = Raise (ValidationError InvalidPassword)) /\
  (match_str unicode_decimal password_regex p = true -> p <> value ->
   validate_password_confirmation unicode_decimal self value = Raise (ValidationError PasswordMismatch)).
Proof.
  intros Hp. rewrite registration_validate_cases, Hp. split.
  - now intros ->.
  - intros -> Hne. destruct (pystr_eqb p value) eqn:He; [|reflexivity].
    apply pystr_eqb_eq in He. contradiction.
Qed.

(** Apart from a newline that ends it, a string the pattern accepts
    satisfies the composed rule and has allowed characters only. *)
Lemma matches_chomp (s : pystr) :
  match_str unicode_decimal password_regex s = true ->
  composed_rule unicode_decimal (chomp s) = true /\
  forallb (allowed unicode_decimal) (chomp s) = true.
Proof.
  rewrite password_regex_spec. apply andb_true_iff.
Qed.

(** A string that does not end in a newline is accepted exactly when it
    satisfies the composed rule and has allowed characters only. *)
Lemma matches_plain (s : pystr) :
  chomp s = s ->
  match_str unicode_decimal password_regex s =
  composed_rule unicode_decimal s && forallb (allowed unicode_decimal) s.
Proof.
  intros E. now rewrite password_regex_spec, E.
Qed.

(** A password that breaks the composed rule and does not end in a
    newline is rejected as invalid, whatever the confirmation. *)
Lemma validate_rejects_uncomposed (self : Serializer) (value p : pystr) :
  dict_get (get_initial self) "password" = PStr p ->
  chomp p = p ->
  composed_rule unicode_decimal p = false ->
  validate_password_confirmation unicode_decimal self value = Raise (ValidationError InvalidPassword).
Proof.
  intros Hp E Hrule.
  apply (validate_rejects_with_rule self value Hp).
  now rewrite (matches_plain E), Hrule.
Qed.

(** The composed rule fails on an accepted string only when that string
    is 16 good characters followed by a newline. *)
Lemma matches_composed_or_newline (s : pystr) :
  match_str unicode_decimal password_regex s = true ->
  composed_rule unicode_decimal s = true \/
  (List.length s = 17 /\ s = (chomp s ++ [newline])%list).
Proof.
  intros H. apply matches_chomp in H as [Hrule _].
  destruct (chomp_split s) as (post & E & Hend).
  destruct (at_end_cases _ Hend) as [-> | ->].
  - rewrite app_nil_r in E. rewrite <- E in Hrule. now left.
  - unfold composed_rule in Hrule. rewrite !andb_true_iff in Hrule.
    destruct Hrule as (((((Hlo & Hhi) & Hl) & Hu) & Hd) & Hs).
    apply Nat.leb_le in Hlo, Hhi.
    destruct (Nat.eq_dec (List.length (chomp s)) 16) as [H16|H16].
    + right. split; [|exact E]. rewrite E, length_app, H16. reflexivity.
    + left. rewrite E. unfold composed_rule.
      rewrite length_app, !existsb_app, Hl, Hu, Hd, Hs.
      cbn [orb List.length]. rewrite !andb_true_r.
      apply andb_true_iff. split; apply Nat.leb_le; lia.
Qed.

(** A password with a character that is not allowed, other than a
    newline that ends it, is rejected as invalid. *)
Lemma validate_rejects_disallowed (self : Serializer) (value p : pystr) :
  dict_get (get_initial self) "password" = PStr p ->
  forallb (allowed unicode_decimal) (chomp p) = false ->
  validate_password_confirmation unicode_decimal self value =
  Raise (ValidationError InvalidPassword).
Proof.
  intros Hp Hbad.
  apply (validate_rejects_with_rule self value Hp).
  rewrite password_regex_spec, Hbad. apply andb_false_r.
Qed.

(** The scenarios of the registration form. *)
Example register_ok :
  validate_password_confirmation unicode_decimal
    (with_password (str "Abcdef1!")) (str "Abcdef1!") =
  Ok (str "Abcdef1!").
Proof. reflexivity. Qed.

Example register_no_uppercase_no_symbol :
  validate_password_confirmation unicode_decimal
    (with_password (str "abcdef12")) (str "abcdef12") =
  Raise (ValidationError InvalidPassword).
Proof. reflexivity. Qed.

Example register_mismatch :
  validate_password_confirmation unicode_decimal
    (with_password (str "Abcdef1!")) (str "Abcdef2!") =
  Raise (ValidationError PasswordMismatch).
Proof. reflexivity. Qed.

Example register_space :
  validate_password_confirmation unicode_decimal
    (with_password (str "Abc def1!")) (str "Abc def1!") =
  Raise (ValidationError InvalidPassword).
Proof. reflexivity. Qed.

Example register_tilde :
  validate_password_confirmation unicode_decimal
    (with_password (str "Abcdef1!~")) (str "Abcdef1!~") =
  Raise (ValidationError InvalidPassword).
Proof. reflexivity. Qed.

End Registration.

(** *** The claims on the registration validator *)

(** An invalid password hides a wrong confirmation: the composed rule is
    checked first. *)
Lemma invalid_password_masks_mismatch (unicode_decimal : N -> bool) :
  validate_password_confirmation unicode_decimal
    (with_password (str "abcdefgh")) (str "ABCDEFGH") =
  Raise (ValidationError InvalidPassword).
Proof. reflexivity. Qed.

(** C1, as stated, fails: it is not so that every registration input
    whose password and confirmation differ is rejected with
    PasswordMismatch.  The password [abcdefgh] with the confirmation
    [ABCDEFGH] is rejected with InvalidPassword. *)
Lemma C1_counterexample :
  ~ (forall (unicode_decimal : N -> bool) (self : Serializer)
       (value p : pystr),
       dict_get (get_initial self) "password" = PStr p ->
       p <> value ->
       validate_password_confirmation unicode_decimal self value =
       Raise (ValidationError PasswordMismatch)).
Proof.
  intros H.
  specialize (H ascii_digits_only (with_password (str "abcdefgh"))
                (str "ABCDEFGH") (str "abcdefgh") eq_refl).
  rewrite invalid_password_masks_mismatch in H.
  assert (E : Raise (A:=pystr) (ValidationError InvalidPassword) =
              Raise (ValidationError PasswordMismatch))
    by (apply H; discriminate).
  discriminate E.
Qed.

(** C1, amended: for every registration input whose raw password is a
    string that differs from the confirmation, validation of the
    confirmation fails; the composed rule is checked first, so the error
    is PasswordMismatch when the password matches the pattern and
    InvalidPassword when it does not. *)
Theorem C1_mismatch_after_composed_rule (unicode_decimal : N -> bool)
    (self : Serializer) (value p : pystr) :
  dict_get (get_initial self) "password" = PStr p ->
  p <> value ->
  validate_password_confirmation unicode_decimal self value =
  if match_str unicode_decimal password_regex p
  then Raise (ValidationError PasswordMismatch)
  else Raise (ValidationError InvalidPassword).
Proof.
  intros Hp Hne.
  destruct (validate_rejects_with_rule unicode_decimal self value Hp)
    as [Hinvalid Hmismatch].
  destruct (match_str unicode_decimal password_regex p); auto.
Qed.

Lemma C1_mismatch_after_composed_rule_witness :
  validate_password_confirmation ascii_digits_only
    (with_password (str "Abcdef1!")) (str "Abcdef1?") =
  Raise (ValidationError PasswordMismatch).
Proof.
  apply (C1_mismatch_after_composed_rule ascii_digits_only
           (with_password (str "Abcdef1!")) (value := str "Abcdef1?")
           (p := str "Abcdef1!")).
  - reflexivity.
  - discriminate.
Defined.

(** C4, at an input the claim covers and the code mishandles: a request
    body without a [password] is not accepted, and no rule is reported
    for it; the validator raises [TypeError]. *)
Theorem C4_no_password_no_rule (unicode_decimal : N -> bool) :
  validate_password_confirmation unicode_decimal
    {| get_initial := [("password_confirmation", PStr (str "Abcdef1!"))] |}
    (str "Abcdef1!") =
  Raise TypeError.
Proof. reflexivity. Qed.

(** C5, at an input the claim covers and the code mishandles: a password
    of 17 characters, 16 good ones and a final newline, matches the
    pattern.  The validator accepts it with an identical confirmation,
    and reports a mismatch, not an invalid password, for the confirmation
    the field has stripped. *)
Theorem C5_seventeen_characters_accepted (unicode_decimal : N -> bool) :
  let p := (str "Abcdef1!Abcdef1!" ++ [newline])%list in
  List.length p = 17 /\
  composed_rule unicode_decimal p = false /\
  match_str unicode_decimal password_regex p = true /\
  validate_password_confirmation unicode_decimal (with_password p) p =
    Ok p /\
  validate_password_confirmation unicode_decimal (with_password p)
    (str "Abcdef1!Abcdef1!") =
    Raise (ValidationError PasswordMismatch).
Proof. repeat split. Qed.

(** C8: for every registration input without a [password] key, the
    validator of the confirmation raises [TypeError], which is not a
    [ValidationError]. *)
Theorem C8_absent_password_raises_TypeError (unicode_decimal : N -> bool)
    (self : Serializer) (value : pystr) :
  dict_has (get_initial self) "password" = false ->
  validate_password_confirmation unicode_decimal self value =
    Raise TypeError /\
  forall detail,
    validate_password_confirmation unicode_decimal self value <>
    Raise (ValidationError detail).
Proof.
  intros H. apply dict_get_absent in H.
  rewrite registration_validate_cases, H. split; [reflexivity|discriminate].
Qed.

Lemma C8_absent_password_raises_TypeError_witness :
  validate_password_confirmation ascii_digits_only
    {| get_initial := [("password_confirmation", PStr (str "Abcdef1!"))] |}
    (str "Abcdef1!") =
  Raise TypeError.
Proof.
  apply (C8_absent_password_raises_TypeError ascii_digits_only
           {| get_initial :=
                [("password_confirmation", PStr (str "Abcdef1!"))] |}
           (str "Abcdef1!")).
  reflexivity.
Defined.

(** C9, at an input the claim covers and the code mishandles: the
    password [Abcdef1!] followed by a newline has a character outside the
    letters, digits and symbols, and the pattern accepts it. *)
Theorem C9_newline_accepted (unicode_decimal : N -> bool) :
  let p := (str "Abcdef1!" ++ [newline])%list in
  forallb (allowed unicode_decimal) p = false /\
  match_str unicode_decimal password_regex p = true /\
  validate_password_confirmation unicode_decimal (with_password p) p =
    Ok p /\
  validate_password_confirmation unicode_decimal (with_password p)
    (str "Abcdef1!") =
    Raise (ValidationError PasswordMismatch).
Proof. repeat split. Qed.

End RegistrationFacts.

(** ** [PasswordResetConfirmationSerializer] *)

Module ResetFacts.
Import AuthSerializers.
Import PasswordResetConfirmationSerializer.
Local Open Scope string_scope.

(** The validator accepts exactly when the raw password is the very
    string of the confirmation, and otherwise reports a mismatch. *)
Lemma reset_validate_cases (self : Serializer) (value : pystr) :
  (dict_get (get_initial self) "password" = PStr value /\
   validate_password_confirmation self value = Ok value) \/
  (dict_get (get_initial self) "password" <> PStr value /\
   validate_password_confirmation self value =
   Raise (ValidationError PasswordMismatch)).
Proof.
  unfold validate_password_confirmation, differs.
  destruct (dict_get (get_initial self) "password") as [| | |p| |];
    try (right; split; [discriminate|reflexivity]).
  destruct (pystr_eqb p value) eqn:E.
  - apply pystr_eqb_eq in E. subst. now left.
  - right. split; [|reflexivity]. intros H. injection H as ->.
    now rewrite pystr_eqb_refl in E.
Qed.

(** C10: the confirmation field of the password reset declares no length
    bounds; its validator compares the confirmation with the raw
    [password] and nothing else, accepting exactly when they are the same
    string; without a [password] key the comparison is with [None] and
    every confirmation is rejected with PasswordMismatch. *)
Theorem C10_reset_confirmation_only_compares :
  max_length password_confirmation = None /\
  min_length password_confirmation = None /\
  (forall self value,
     (dict_get (get_initial self) "password" = PStr value /\
      validate_password_confirmation self value = Ok value) \/
     (dict_get (get_initial self) "password" <> PStr value /\
      validate_password_confirmation self value =
      Raise (ValidationError PasswordMismatch))) /\
  (forall self value,
     dict_has (get_initial self) "password" = false ->
     dict_get (get_initial self) "password" = PNone /\
     validate_password_confirmation self value =
     Raise (ValidationError PasswordMismatch)).
Proof.
  split; [reflexivity|]. split; [reflexivity|].
  split; [exact reset_validate_cases|].
  intros self value H. apply dict_get_absent in H. split; [exact H|].
  destruct (reset_validate_cases self value) as [[Hp _]|[_ Hv]]; [|exact Hv].
  congruence.
Qed.

Lemma C10_reset_confirmation_only_compares_witness :
  validate_password_confirmation
    {| get_initial := [("otp", PStr (str "123456"));
                       ("password_confirmation", PStr (str "Abcdef1!"))] |}
    (str "Abcdef1!") =
  Raise (ValidationError PasswordMismatch).
Proof.
  apply (proj2 (proj2 (proj2 C10_reset_confirmation_only_compares))).
  reflexivity.
Defined.

End ResetFacts.

(** ** [APIResponseMixin] *)

Module ResponseFacts.
Import APIResponseMixin.
Local Open Scope string_scope.
Local Open Scope Z_scope.

Lemma Response_init_valid (d : pyval) (status : Z) :
  100 <= status <= 599 ->
  Response_init d status =
  Ok {| data := d; APIResponseMixin.status_code := status |}.
Proof.
  intros H. unfold Response_init.
  destruct (Z.leb_spec 100 status); [|lia].
  destruct (Z.leb_spec status 599); [reflexivity|lia].
Qed.

Lemma Response_init_invalid (d : pyval) (status : Z) :
  ~ 100 <= status <= 599 -> Response_init d status = Raise ValueError.
Proof.
  intros H. unfold Response_init.
  destruct (Z.leb_spec 100 status); [|reflexivity].
  destruct (Z.leb_spec status 599); [lia|reflexivity].
Qed.

(** C6, as stated, fails: it is not so that every call of [error] gives
    an envelope with the HTTP status [status_code].  With the status -1
    the call gives no response: the constructor of the response raises
    [ValueError]. *)
Lemma C6_counterexample :
  ~ (forall (message : pyval) (errors : option pyval) (code : Z),
       exists r,
         error message errors (Some code) = Ok r /\
         APIResponseMixin.status_code r = code).
Proof.
  intros H.
  destruct (H (PStr (str "x")) None (-1)) as (r & Hr & _).
  discriminate Hr.
Qed.

(** C6, amended: for a [status_code] from 100 to 599, or omitted, [error]
    builds the envelope [{status: false, message, errors}] with the HTTP
    status [status_code], 400 when omitted; a string [errors] becomes a
    one-element list, a list is passed through, and omitted [errors] are
    null.  For any other [status_code] the call raises [ValueError]. *)
Theorem C6_error_envelope (message : pyval) (status_code : option Z) :
  let code := default 400 status_code in
  let envelope errors :=
    Ok {| data := PDict [("status", PBool false); ("message", message);
                         ("errors", errors)];
          APIResponseMixin.status_code := code |} in
  (100 <= code <= 599 ->
   (forall s,
      error message (Some (PStr s)) status_code =
      envelope (PList [PStr s])) /\
   (forall l,
      error message (Some (PList l)) status_code = envelope (PList l)) /\
   error message None status_code = envelope PNone) /\
  (forall errors,
     exists r,
       error message errors None = Ok r /\
       APIResponseMixin.status_code r = 400) /\
  (~ 100 <= code <= 599 ->
   forall errors, error message errors status_code = Raise ValueError).
Proof.
  intros code envelope. split; [|split].
  - intros Hcode. unfold error, envelope. fold code.
    repeat split; intros; now rewrite Response_init_valid.
  - intros errors. eexists. split; reflexivity.
  - intros Hcode errors. unfold error. fold code.
    now apply Response_init_invalid.
Qed.

Lemma C6_error_envelope_witness :
  error (PStr (str "Invalid input")) (Some (PStr (str "Email is taken")))
    (Some 409) =
  Ok {| data := PDict [("status", PBool false);
                       ("message", PStr (str "Invalid input"));
                       ("errors", PList [PStr (str "Email is taken")])];
        APIResponseMixin.status_code := 409 |}.
Proof.
  apply (proj1 (C6_error_envelope (PStr (str "Invalid input")) (Some 409))).
  split; discriminate.
Defined.

(** [success] builds [{status: true, message, data}] with the given
    status, 200 when omitted, when the status is one from 100 to 599. *)
Lemma success_envelope (message : pyval) (d : option pyval)
    (status_code : option Z) :
  100 <= default 200 status_code <= 599 ->
  success message d status_code =
  Ok {| data := PDict [("status", PBool true); ("message", message);
                       ("data", default PNone d)];
        APIResponseMixin.status_code := default 200 status_code |}.
Proof.
  intros H. unfold success. now rewrite Response_init_valid.
Qed.

End ResponseFacts.

(** ** [APIResponseMixin.paginated_response] *)

Module PaginationFacts.
Import APIResponseMixin.
Local Open Scope string_scope.
Local Open Scope Z_scope.

(** [ceil_div] is the ceiling of the quotient. *)
Lemma ceil_div_spec (a b : Z) :
  0 < b -> (ceil_div a b - 1) * b < a <= ceil_div a b * b.
Proof.
  intros Hb. unfold ceil_div.
  pose proof (Z.div_mod (- a) b ltac:(lia)) as E.
  pose proof (Z.mod_pos_bound (- a) b Hb) as B.
  nia.
Qed.

Lemma ceil_div_unique (a b q : Z) :
  0 < b -> (q - 1) * b < a <= q * b -> ceil_div a b = q.
Proof.
  intros Hb Hq. pose proof (ceil_div_spec a Hb) as H. nia.
Qed.

Lemma ceil_div_one (b : Z) : 0 < b -> ceil_div 1 b = 1.
Proof. intros Hb. apply ceil_div_unique; lia. Qed.

Lemma ceil_div_zero (b : Z) : 0 < b -> ceil_div 0 b = 0.
Proof. intros Hb. apply ceil_div_unique; lia. Qed.

Lemma ceil_div_ge_one (a b : Z) : 0 < b -> 1 <= a -> 1 <= ceil_div a b.
Proof.
  intros Hb Ha. pose proof (ceil_div_spec a Hb) as H. nia.
Qed.

(** *** The float quotient *)

Lemma rne_div_le (n d K : Z) : 0 < d -> n <= K * d -> rne_div n d <= K.
Proof.
  intros Hd Hn. unfold rne_div.
  pose proof (Z.div_mod n d ltac:(lia)) as E.
  pose proof (Z.mod_pos_bound n d Hd) as B.
  destruct (2 * (n mod d) <? d) eqn:H1; [nia|].
  apply Z.ltb_ge in H1.
  assert (n / d < K) by nia.
  destruct (d <? 2 * (n mod d)); [lia|].
  destruct (Z.even (n / d)); lia.
Qed.

Lemma rne_div_ge (n d K : Z) : 0 < d -> K * d <= n -> K <= rne_div n d.
Proof.
  intros Hd Hn. unfold rne_div.
  pose proof (Z.div_mod n d ltac:(lia)) as E.
  pose proof (Z.mod_pos_bound n d Hd) as B.
  assert (K <= n / d) by nia.
  destruct (2 * (n mod d) <? d); [lia|].
  destruct (d <? 2 * (n mod d)); [lia|].
  destruct (Z.even (n / d)); lia.
Qed.

(** More than half a unit above [K], the quotient rounds above [K]. *)
Lemma rne_div_gt (n d K : Z) :
  0 < d -> d < 2 * (n - K * d) -> K + 1 <= rne_div n d.
Proof.
  intros Hd Hn. unfold rne_div.
  pose proof (Z.div_mod n d ltac:(lia)) as E.
  pose proof (Z.mod_pos_bound n d Hd) as B.
  assert (K <= n / d) by nia.
  destruct (Z.eq_dec (n / d) K) as [Hq|Hq].
  - assert (n mod d = n - K * d) by nia.
    destruct (Z.ltb_spec (2 * (n mod d)) d); [lia|].
    destruct (Z.ltb_spec d (2 * (n mod d))); lia.
  - destruct (2 * (n mod d) <? d); [lia|].
    destruct (d <? 2 * (n mod d)); [lia|].
    destruct (Z.even (n / d)); lia.
Qed.

(** The exponent chosen for the quotient is not above it: [2 ^ E] is at
    most [a / b]. *)
Lemma exponent_below (a b : Z) :
  0 < a -> 0 < b ->
  let e0 := Z.log2 a - Z.log2 b in
  let E := if b * 2 ^ Z.max 0 e0 <=? a * 2 ^ Z.max 0 (- e0) then e0
           else e0 - 1 in
  b * 2 ^ Z.max 0 E <= a * 2 ^ Z.max 0 (- E) /\ E <= Z.log2 a.
Proof.
  intros Ha Hb e0 E.
  pose proof (Z.log2_nonneg a) as Hla. pose proof (Z.log2_nonneg b) as Hlb.
  destruct (Z.log2_spec a Ha) as [Ha1 Ha2].
  destruct (Z.log2_spec b Hb) as [Hb1 Hb2].
  subst E.
  destruct (Z.leb_spec (b * 2 ^ Z.max 0 e0) (a * 2 ^ Z.max 0 (- e0)))
    as [Hle|Hgt].
  - split; [exact Hle|]. subst e0. lia.
  - split; [|subst e0; lia].
    destruct (Z_le_gt_dec 1 e0) as [H1|H1].
    + rewrite (Z.max_r 0 (e0 - 1)), (Z.max_l 0 (- (e0 - 1))) by lia.
      rewrite Z.pow_0_r, Z.mul_1_r.
      assert (Hp : 2 ^ Z.log2 a = 2 ^ Z.succ (Z.log2 b) * 2 ^ (e0 - 1)).
      { rewrite <- Z.pow_add_r by lia. f_equal; subst e0; lia. }
      assert (0 < 2 ^ (e0 - 1)) by (apply Z.pow_pos_nonneg; lia).
      nia.
    + rewrite (Z.max_l 0 (e0 - 1)), (Z.max_r 0 (- (e0 - 1))) by lia.
      rewrite Z.pow_0_r, Z.mul_1_r.
      assert (Hp : 2 ^ Z.succ (Z.log2 b) = 2 ^ Z.log2 a * 2 ^ (- (e0 - 1))).
      { rewrite <- Z.pow_add_r by lia. f_equal; subst e0; lia. }
      assert (0 < 2 ^ (- (e0 - 1))) by (apply Z.pow_pos_nonneg; lia).
      nia.
Qed.

(** For a numerator below 2^53 the float ceiling is the exact one, or
    zero when the divisor is so large that the quotient rounds to zero. *)
Lemma ceil_true_divide_small (a b : Z) :
  0 < a < 2 ^ 53 -> 0 < b ->
  exists c,
    ceil_true_divide a b = Ok c /\
    (c = ceil_div a b \/ (c = 0 /\ 2 ^ 1075 <= b)).
Proof.
  intros Ha Hb. unfold ceil_true_divide, float_mantissa, float_exponent.
  rewrite (Z.abs_eq b) by lia.
  destruct (@exponent_below a b ltac:(lia) Hb) as [HE HEa].
  cbv zeta in HE, HEa.
  set (E := if b * 2 ^ Z.max 0 (Z.log2 a - Z.log2 b) <=?
               a * 2 ^ Z.max 0 (- (Z.log2 a - Z.log2 b))
            then Z.log2 a - Z.log2 b else Z.log2 a - Z.log2 b - 1) in *.
  assert (Hla : Z.log2 a < 53) by (apply Z.log2_lt_pow2; lia).
  set (e := Z.max (E - 52) (-1074)).
  assert (He : -1074 <= e <= 0) by lia.
  rewrite (Z.max_r 0 (- e)), (Z.max_l 0 e) by lia.
  rewrite Z.pow_0_r, !Z.mul_1_r.
  set (P := 2 ^ (- e)).
  assert (HP : 0 < P) by (apply Z.pow_pos_nonneg; lia).
  set (k := ceil_div a b).
  pose proof (ceil_div_spec a Hb) as Hk. fold k in Hk.
  assert (Hk1 : 1 <= k <= a) by nia.
  set (m := rne_div (a * P) b).
  assert (Hm_le : m <= k * P) by (apply rne_div_le; nia).
  assert (Hm_ge : 0 <= m) by (apply rne_div_ge; nia).
  assert (Hno : (2 ^ 1024 * P <=? m) = false).
  { apply Z.leb_gt.
    assert (2 ^ 53 < 2 ^ 1024) by (apply Z.pow_lt_mono_r; lia).
    nia. }
  rewrite Hno.
  destruct (Z.ltb_spec 0 b) as [_|]; [|lia].
  assert (Hres : (if 0 <=? e then m * 2 ^ e else - (- m / P)) =
                 ceil_div m P).
  { destruct (Z.leb_spec 0 e).
    - assert (e = 0) by lia. unfold ceil_div, P. replace e with 0 by lia.
      simpl. rewrite Z.div_1_r. lia.
    - reflexivity. }
  rewrite Hres. eexists. split; [reflexivity|].
  assert (Hb53 : b < 2 ^ (53 - E)).
  { destruct (Z_le_gt_dec 0 E) as [H0|H0].
    - rewrite (Z.max_r 0 E), (Z.max_l 0 (- E)) in HE by lia.
      rewrite Z.pow_0_r, Z.mul_1_r in HE.
      assert (Hp : 2 ^ 53 = 2 ^ (53 - E) * 2 ^ E).
      { rewrite <- Z.pow_add_r by lia. f_equal; lia. }
      assert (0 < 2 ^ E) by (apply Z.pow_pos_nonneg; lia).
      nia.
    - rewrite (Z.max_l 0 E), (Z.max_r 0 (- E)) in HE by lia.
      rewrite Z.pow_0_r, Z.mul_1_r in HE.
      assert (Hp : 2 ^ (53 - E) = 2 ^ 53 * 2 ^ (- E)).
      { rewrite <- Z.pow_add_r by lia. f_equal; lia. }
      assert (0 < 2 ^ (- E)) by (apply Z.pow_pos_nonneg; lia).
      nia. }
  destruct (Z_lt_ge_dec b (2 * P)) as [Hsmall|Hbig].
  - left. apply ceil_div_unique; [exact HP|].
    split; [|lia].
    assert ((k - 1) * P + 1 <= m); [|lia].
    apply rne_div_gt; [lia|].
    assert (1 <= a - (k - 1) * b) by lia. nia.
  - assert (He' : e = -1074).
    { destruct (Z.eq_dec e (-1074)) as [|Hne]; [assumption|].
      exfalso. assert (e = E - 52) by lia.
      assert (2 * P = 2 ^ (53 - E)).
      { unfold P. replace (53 - E) with (1 + - e) by lia.
        rewrite Z.pow_add_r by lia. reflexivity. }
      lia. }
    assert (HP' : 2 * P = 2 ^ 1075).
    { unfold P. rewrite He'. reflexivity. }
    assert (2 ^ 53 < 2 ^ 1075) by (apply Z.pow_lt_mono_r; lia).
    assert (k = 1) by nia.
    destruct (Z.eq_dec m 0) as [Hm0|Hm0].
    + right. split; [|lia]. rewrite Hm0.
      apply ceil_div_unique; [exact HP|lia].
    + left. apply ceil_div_unique; [exact HP|]. nia.
Qed.

Lemma ceil_true_divide_exact (a b : Z) :
  0 < a < 2 ^ 53 -> 0 < b < 2 ^ 1075 ->
  ceil_true_divide a b = Ok (ceil_div a b).
Proof.
  intros Ha Hb.
  destruct (ceil_true_divide_small Ha (proj1 Hb)) as (c & Hc & [-> | [_ H]]);
    [exact Hc|lia].
Qed.

(** The float quotient at its limits: 1/2^1075 is zero, and 2^53 + 1 is
    the float 2^53. *)
Lemma ceil_true_divide_underflow : ceil_true_divide 1 (2 ^ 1075) = Ok 0.
Proof. vm_compute. reflexivity. Qed.

Lemma ceil_true_divide_rounds :
  ceil_true_divide (2 ^ 53 + 1) 1 = Ok (2 ^ 53).
Proof. vm_compute. reflexivity. Qed.

Section Facts.
Variable Row : Type.
Variable created_at : Row -> Z.
Variable replace_query_param : pystr -> string -> Z -> pystr.
Variable remove_query_param : pystr -> string -> pystr.

Lemma length_insert_by (x : Row) (l : list Row) :
  List.length (insert_by created_at x l) = S (List.length l).
Proof.
  induction l as [|y l IH]; simpl; [reflexivity|].
  destruct (created_at x <=? created_at y); simpl; [reflexivity|].
  now rewrite IH.
Qed.

(** Ordering a queryset keeps the number of its rows. *)
Lemma length_order_by (q : QuerySet Row) :
  List.length (rows (order_by_created_at created_at q)) =
  List.length (rows q).
Proof.
  simpl. induction (rows q) as [|x l IH]; simpl; [reflexivity|].
  now rewrite length_insert_by, IH.
Qed.

(** The number of pages of a collection of fewer than 2^53 rows, for a
    positive page size: the exact ceiling, 1 for no row at all; or zero,
    when the page size is 2^1075 or more. *)
Lemma num_pages_small (p : Paginator Row) :
  0 < per_page p -> count p < 2 ^ 53 ->
  exists pages,
    num_pages p = Ok pages /\
    (pages = (if count p =? 0 then 1 else ceil_div (count p) (per_page p))
     \/ (pages = 0 /\ 2 ^ 1075 <= per_page p)).
Proof.
  intros Hpp Hcount. unfold num_pages. rewrite Z.sub_0_r.
  assert (0 <= count p) by (unfold count; lia).
  assert (Hhits : 0 < Z.max 1 (count p) < 2 ^ 53).
  { assert (1 < 2 ^ 53) by reflexivity. lia. }
  destruct (ceil_true_divide_small Hhits Hpp) as (c & Hc & Hcases).
  exists c. split; [exact Hc|].
  destruct Hcases as [-> | H0]; [left|now right].
  destruct (Z.eqb_spec (count p) 0) as [E|E].
  - rewrite E. simpl. now apply ceil_div_one.
  - f_equal. lia.
Qed.

Lemma num_pages_exact (p : Paginator Row) :
  0 < per_page p < 2 ^ 1075 -> count p < 2 ^ 53 ->
  num_pages p =
  Ok (if count p =? 0 then 1 else ceil_div (count p) (per_page p)).
Proof.
  intros Hpp Hcount.
  destruct (num_pages_small p (proj1 Hpp) Hcount)
    as (c & Hc & [-> | [_ H]]); [exact Hc|lia].
Qed.

Lemma exact_pages_ge_one (total size : Z) :
  0 <= total -> 0 < size ->
  1 <= (if total =? 0 then 1 else ceil_div total size).
Proof.
  intros Ht Hs. destruct (Z.eqb_spec total 0); [lia|].
  apply ceil_div_ge_one; lia.
Qed.

Lemma count_paginator_for (size : Z) (q : QuerySet Row) :
  count (paginator_for created_at size q) = Z.of_nat (List.length (rows q)).
Proof.
  unfold count, paginator_for. simpl.
  destruct (ordered q); simpl negb; cbv iota; [reflexivity|].
  now rewrite length_order_by.
Qed.

(** What [paginated_response] does with a queryset when the paginator
    has [pages] pages: [NotFound] for a page the paginator refuses, and
    otherwise the envelope of that page. *)
Lemma paginated_response_eq (request : Request) (q : QuerySet Row)
    (serializer_class : Row -> pyval) (message : option pyval)
    (page_size status_code : option Z) (pages : Z) :
  default 10 page_size <> 0 ->
  num_pages (paginator_for created_at (default 10 page_size) q) =
    Ok pages ->
  paginated_response created_at replace_query_param remove_query_param
    request (Some q) serializer_class message page_size status_code =
  match requested_page request pages with
  | None => Raise NotFound
  | Some n =>
      if (n <? 1) || (n >? pages) then Raise NotFound
      else
        Ok {| data := PDict [
                ("status", PBool true);
                ("message", default (PStr (str "Success")) message);
                ("data",
                 PList (map serializer_class
                          (rows_of
                             (paginator_for created_at
                                (default 10 page_size) q) n)));
                ("status_code", PInt (default 200 status_code));
                ("pagination", PDict [
                   ("next",
                    if n <? pages
                    then PStr (replace_query_param
                                 (build_absolute_uri request) "page"
                                 (n + 1))
                    else PNone);
                   ("previous",
                    if n >? 1
                    then if n - 1 =? 1
                         then PStr (remove_query_param
                                      (build_absolute_uri request) "page")
                         else PStr (replace_query_param
                                      (build_absolute_uri request) "page"
                                      (n - 1))
                    else PNone);
                   ("count",
                    PInt (count
                            (paginator_for created_at
                               (default 10 page_size) q)));
                   ("current_page", PInt n);
                   ("total_pages", PInt pages)])];
              APIResponseMixin.status_code := 200 |}
  end.
Proof.
  intros Hsize Hpages.
  unfold paginated_response, paginate_queryset. cbv zeta.
  destruct (Z.eqb_spec (default 10 page_size) 0) as [|_]; [contradiction|].
  change {| object_list :=
              rows (if negb (ordered q)
                    then order_by_created_at created_at q else q);
            per_page := default 10 page_size |}
    with (paginator_for created_at (default 10 page_size) q).
  set (p := paginator_for created_at (default 10 page_size) q) in *.
  assert (Hpage : forall n,
    page p (Some n) =
    if (n <? 1) || (n >? pages) then Raise EmptyPage
    else Ok {| number := n; page_rows := rows_of p n |}).
  { intros n. unfold page, validate_number.
    destruct (n <? 1); [reflexivity|]. rewrite Hpages. cbn [bind orb].
    destruct (n >? pages); [reflexivity|]. cbn [bind].
    unfold rows_of. do 3 f_equal. rewrite Z.add_0_r.
    destruct (Z.geb_spec ((n - 1) * per_page p + per_page p) (count p));
      lia. }
  unfold requested_page, get_page_number.
  destruct (query_page request) as [| |n|]; cbn [bind];
    rewrite ?Hpages; cbn [bind]; rewrite ?Hpage;
    try reflexivity;
    match goal with
    | |- context [(?n <? 1) || (?n >? pages)] =>
        destruct ((n <? 1) || (n >? pages)); [reflexivity|]
    end;
    cbn [bind];
    unfold get_next_link, get_previous_link, has_next, has_previous;
    rewrite Hpages; cbn [bind number page_rows];
    match goal with
    | |- context [?n <? pages] => destruct (n <? pages)
    end;
    try match goal with
    | |- context [?n >? 1] => destruct (n >? 1)
    end; reflexivity.
Qed.

(** Without the number of pages no page is served. *)
Lemma paginated_response_raises (request : Request) (q : QuerySet Row)
    (serializer_class : Row -> pyval) (message : option pyval)
    (page_size : option Z) (e : exn) :
  num_pages (paginator_for created_at (default 10 page_size) q) =
    Raise e ->
  exists e',
    forall status_code,
      paginated_response created_at replace_query_param remove_query_param
        request (Some q) serializer_class message page_size status_code =
      Raise e'.
Proof.
  intros Hpages.
  unfold paginated_response, paginate_queryset. cbv zeta.
  destruct (default 10 page_size =? 0); [eexists; reflexivity|].
  change {| object_list :=
              rows (if negb (ordered q)
                    then order_by_created_at created_at q else q);
            per_page := default 10 page_size |}
    with (paginator_for created_at (default 10 page_size) q).
  set (p := paginator_for created_at (default 10 page_size) q) in *.
  unfold get_page_number, page, validate_number.
  destruct (query_page request) as [| |n|]; cbn [bind];
    rewrite ?Hpages; cbn [bind]; try (eexists; reflexivity).
  - destruct e; eexists; reflexivity.
  - destruct (n <? 1); cbn [bind]; [eexists; reflexivity|].
    destruct e; eexists; reflexivity.
Qed.

(** A response that is returned is the envelope of a page between 1 and
    the number of pages. *)
Lemma paginated_response_inv (request : Request) (q : QuerySet Row)
    (serializer_class : Row -> pyval) (message : option pyval)
    (page_size status_code : option Z) (r : Response) :
  paginated_response created_at replace_query_param remove_query_param
    request (Some q) serializer_class message page_size status_code =
    Ok r ->
  exists pages n,
    default 10 page_size <> 0 /\
    num_pages (paginator_for created_at (default 10 page_size) q) =
      Ok pages /\
    requested_page request pages = Some n /\
    1 <= n <= pages.
Proof.
  intros Hr.
  destruct (Z.eq_dec (default 10 page_size) 0) as [Hz|Hnz].
  { unfold paginated_response, paginate_queryset in Hr. cbv zeta in Hr.
    rewrite Hz in Hr. discriminate Hr. }
  destruct (num_pages (paginator_for created_at (default 10 page_size) q))
    as [pages|e] eqn:Hpages.
  - rewrite (paginated_response_eq _ _ _ _ _ _ Hnz Hpages) in Hr.
    exists pages.
    destruct (requested_page request pages) as [n|]; [|discriminate].
    exists n. repeat split; try assumption;
      destruct (Z.ltb_spec n 1); destruct (Z.gtb_spec n pages);
      try discriminate; lia.
  - destruct (paginated_response_raises request q serializer_class message
                page_size Hpages) as (e' & He').
    rewrite He' in Hr. discriminate Hr.
Qed.

Lemma length_slice (l : list Row) (bottom top : Z) :
  0 <= bottom <= top -> top <= Z.of_nat (List.length l) ->
  Z.of_nat (List.length (slice l bottom top)) = top - bottom.
Proof.
  intros Hb Ht. unfold slice. rewrite length_firstn, length_skipn. lia.
Qed.

(** C3: whatever [status_code] is passed, a response that
    [paginated_response] returns has the HTTP status 200; the argument is
    the [status_code] entry of the body and changes nothing else, and
    whether an exception is raised does not depend on it.  And such a
    response is returned, whatever the [status_code]: so for the first
    page of a collection of fewer than 2^53 rows, with a positive page
    size below 2^1075. *)
Theorem C3_paginated_status_is_200 (request : Request)
    (queryset : option (QuerySet Row)) (serializer_class : Row -> pyval)
    (message : option pyval) (page_size : option Z) (code : Z) :
  let respond :=
    paginated_response created_at replace_query_param remove_query_param
      request queryset serializer_class message page_size in
  match respond (Some code) with
  | Ok r =>
      APIResponseMixin.status_code r = 200 /\
      item (data r) "status_code" = PInt code /\
      forall code' : option Z,
        respond code' =
        Ok {| data := with_item (data r) "status_code"
                        (PInt (default 200 code'));
              APIResponseMixin.status_code := 200 |}
  | Raise e => forall code' : option Z, respond code' = Raise e
  end /\
  (forall q,
     queryset = Some q ->
     0 < default 10 page_size < 2 ^ 1075 ->
     Z.of_nat (List.length (rows q)) < 2 ^ 53 ->
     query_page request = page_absent ->
     exists r,
       respond (Some code) = Ok r /\
       APIResponseMixin.status_code r = 200 /\
       item (data r) "status_code" = PInt code).
Proof.
  intros respond. subst respond. split.
  - destruct queryset as [q|]; [|intros code'; reflexivity].
    destruct (Z.eq_dec (default 10 page_size) 0) as [Hz|Hnz].
    { unfold paginated_response, paginate_queryset. cbv zeta.
      rewrite Hz. intros code'. reflexivity. }
    destruct (num_pages (paginator_for created_at (default 10 page_size) q))
      as [pages|e] eqn:Hpages.
    + rewrite (paginated_response_eq _ _ _ _ _ _ Hnz Hpages).
      destruct (requested_page request pages) as [n|] eqn:Hn.
      * destruct ((n <? 1) || (n >? pages)) eqn:Hrange.
        -- intros code'.
           now rewrite (paginated_response_eq _ _ _ _ _ _ Hnz Hpages),
             Hn, Hrange.
        -- split; [reflexivity|]. split; [reflexivity|].
           intros code'.
           now rewrite (paginated_response_eq _ _ _ _ _ _ Hnz Hpages),
             Hn, Hrange.
      * intros code'.
        now rewrite (paginated_response_eq _ _ _ _ _ _ Hnz Hpages), Hn.
    + destruct (paginated_response_raises request q serializer_class
                  message page_size Hpages) as (e' & He').
      rewrite He'. intros code'. apply He'.
  - intros q -> Hsize Htotal Hpage.
    set (p := paginator_for created_at (default 10 page_size) q).
    assert (Hcount : count p = Z.of_nat (List.length (rows q)))
      by apply count_paginator_for.
    assert (Hnz : default 10 page_size <> 0) by lia.
    assert (Hsmall : count p < 2 ^ 53) by (rewrite Hcount; exact Htotal).
    assert (Hpages := num_pages_exact p Hsize Hsmall).
    assert (Hnonneg : 0 <= count p) by (unfold count; lia).
    pose proof (exact_pages_ge_one (total := count p)
                  (size := per_page p) Hnonneg (proj1 Hsize)) as Hge.
    rewrite (paginated_response_eq _ _ _ _ _ _ Hnz Hpages).
    unfold requested_page. rewrite Hpage.
    destruct (Z.ltb_spec 1 1); [lia|].
    destruct (Z.gtb_spec 1
                (if count p =? 0 then 1
                 else ceil_div (count p) (per_page p))); [lia|].
    cbn [orb]. eexists. repeat split.
Qed.

(** C2, amended: for every empty queryset, a positive page size below
    2^1075 and a request for the first page (no [page] parameter, [1] or
    [last]), [paginated_response] returns an empty [data] list and a
    pagination block with count 0, current page 1, one page in total,
    and next and previous both null. *)
Theorem C2_empty_queryset_one_page (request : Request) (q : QuerySet Row)
    (serializer_class : Row -> pyval) (message : option pyval)
    (page_size status_code : option Z) :
  rows q = [] ->
  0 < default 10 page_size < 2 ^ 1075 ->
  query_page request = page_absent \/
  query_page request = page_last \/
  query_page request = page_int 1 ->
  paginated_response created_at replace_query_param remove_query_param
    request (Some q) serializer_class message page_size status_code =
  Ok {| data := PDict [
          ("status", PBool true);
          ("message", default (PStr (str "Success")) message);
          ("data", PList []);
          ("status_code", PInt (default 200 status_code));
          ("pagination", PDict [
             ("next", PNone);
             ("previous", PNone);
             ("count", PInt 0);
             ("current_page", PInt 1);
             ("total_pages", PInt 1)])];
        APIResponseMixin.status_code := 200 |}.
Proof.
  intros Hrows Hsize Hpage.
  set (p := paginator_for created_at (default 10 page_size) q).
  assert (Hcount : count p = 0).
  { unfold p. now rewrite count_paginator_for, Hrows. }
  assert (Hpages : num_pages p = Ok 1).
  { rewrite (num_pages_exact p Hsize) by (rewrite Hcount; reflexivity).
    now rewrite Hcount. }
  assert (Hnz : default 10 page_size <> 0) by lia.
  rewrite (paginated_response_eq _ _ _ _ _ _ Hnz Hpages).
  assert (Hn : requested_page request 1 = Some 1).
  { unfold requested_page. destruct Hpage as [-> | [-> | ->]]; reflexivity. }
  rewrite Hn. cbn [orb Z.ltb Z.gtb Z.compare Pos.compare Pos.compare_cont].
  fold p. rewrite Hcount.
  assert (Hnil : rows_of p 1 = []).
  { unfold rows_of.
    assert (object_list p = []) as ->.
    { unfold count in Hcount. destruct (object_list p); [reflexivity|].
      simpl in Hcount. lia. }
    unfold slice. now rewrite skipn_nil, firstn_nil. }
  rewrite Hnil. reflexivity.
Qed.

(** A queryset of [None] is not paginated: reading its [ordered]
    attribute fails. *)
Lemma no_queryset (request : Request) (serializer_class : Row -> pyval)
    (message : option pyval) (page_size status_code : option Z) :
  paginated_response created_at replace_query_param remove_query_param
    request None serializer_class message page_size status_code =
  Raise AttributeError.
Proof. reflexivity. Qed.

(** Any other page of an empty queryset is not found. *)
Lemma empty_other_page (request : Request) (q : QuerySet Row)
    (serializer_class : Row -> pyval) (message : option pyval)
    (page_size status_code : option Z) (n : Z) :
  rows q = [] -> 0 < default 10 page_size < 2 ^ 1075 ->
  query_page request = page_int n -> n <> 1 ->
  paginated_response created_at replace_query_param remove_query_param
    request (Some q) serializer_class message page_size status_code =
  Raise NotFound.
Proof.
  intros Hrows Hsize Hpage Hn.
  set (p := paginator_for created_at (default 10 page_size) q).
  assert (Hcount : count p = 0).
  { unfold p. now rewrite count_paginator_for, Hrows. }
  assert (Hpages : num_pages p = Ok 1).
  { rewrite (num_pages_exact p Hsize) by (rewrite Hcount; reflexivity).
    now rewrite Hcount. }
  assert (Hnz : default 10 page_size <> 0) by lia.
  rewrite (paginated_response_eq _ _ _ _ _ _ Hnz Hpages).
  unfold requested_page. rewrite Hpage.
  destruct (Z.ltb_spec n 1); [reflexivity|].
  destruct (Z.gtb_spec n 1); [reflexivity|lia].
Qed.

(** With a page size of 2^1075 the float quotient is zero: an empty
    queryset has no page at all, and its first page is not found. *)
Lemma empty_huge_page_size (request : Request) (q : QuerySet Row)
    (serializer_class : Row -> pyval) (message : option pyval)
    (status_code : option Z) :
  rows q = [] -> query_page request = page_absent ->
  paginated_response created_at replace_query_param remove_query_param
    request (Some q) serializer_class message (Some (2 ^ 1075))
    status_code =
  Raise NotFound.
Proof.
  intros Hrows Hpage.
  set (p := paginator_for created_at (default 10 (Some (2 ^ 1075))) q).
  assert (Hcount : count p = 0).
  { unfold p. now rewrite count_paginator_for, Hrows. }
  assert (Hpages : num_pages p = Ok 0).
  { unfold num_pages. rewrite Hcount. exact ceil_true_divide_underflow. }
  assert (Hnz : default 10 (Some (2 ^ 1075)) <> 0) by discriminate.
  rewrite (paginated_response_eq _ _ _ _ _ _ Hnz Hpages).
  unfold requested_page. rewrite Hpage. reflexivity.
Qed.

(** C7, amended: over 25 items with a page size of 10, page 2 has 10
    items, [current_page] 2, [total_pages] 3 and both links; in general,
    for a positive page size and fewer than 2^53 items, [count] is the
    number of items on all pages, [current_page] is 1-based and at most
    [total_pages], and [total_pages] is the ceiling of count/page_size,
    except that it is 1 when there is no item. *)
Theorem C7_page_counts (request : Request) (q : QuerySet Row)
    (serializer_class : Row -> pyval) (message : option pyval)
    (page_size status_code : option Z) :
  let respond :=
    paginated_response created_at replace_query_param remove_query_param
      request (Some q) serializer_class message page_size status_code in
  let total := Z.of_nat (List.length (rows q)) in
  (List.length (rows q) = 25%nat ->
   default 10 page_size = 10 ->
   query_page request = page_int 2 ->
   exists r items,
     respond = Ok r /\
     item (data r) "data" = PList items /\
     List.length items = 10%nat /\
     pagination r "count" = PInt 25 /\
     pagination r "current_page" = PInt 2 /\
     pagination r "total_pages" = PInt 3 /\
     pagination r "previous" <> PNone /\
     pagination r "next" <> PNone) /\
  (forall r,
     0 < default 10 page_size ->
     total < 2 ^ 53 ->
     respond = Ok r ->
     exists n,
       pagination r "count" = PInt total /\
       pagination r "current_page" = PInt n /\
       pagination r "total_pages" =
         PInt (if total =? 0 then 1
               else ceil_div total (default 10 page_size)) /\
       1 <= n <= (if total =? 0 then 1
                  else ceil_div total (default 10 page_size))).
Proof.
  intros respond total. subst respond.
  set (p := paginator_for created_at (default 10 page_size) q).
  assert (Hcount : count p = total) by apply count_paginator_for.
  split.
  - intros Hlen Hsize Hpage.
    assert (Htotal : total = 25) by (unfold total; lia).
    assert (Hper : per_page p = 10) by exact Hsize.
    assert (Hpages : num_pages p = Ok 3).
    { rewrite num_pages_exact.
      - now rewrite Hper, Hcount, Htotal.
      - rewrite Hper. split; reflexivity.
      - rewrite Hcount, Htotal. reflexivity. }
    assert (Hnz : default 10 page_size <> 0) by lia.
  rewrite (paginated_response_eq _ _ _ _ _ _ Hnz Hpages).
    unfold requested_page. rewrite Hpage. cbn [orb Z.ltb Z.gtb Z.compare
      Pos.compare Pos.compare_cont].
    eexists. eexists. split; [reflexivity|].
    split; [reflexivity|].
    split.
    { rewrite length_map. fold p. apply Nat2Z.inj.
      pose proof Hcount as Hlist. unfold count in Hlist.
      unfold rows_of. rewrite length_slice; rewrite ?Hcount, ?Hper; lia. }
    unfold pagination. simpl. fold p. rewrite Hcount, Htotal.
    repeat split; discriminate.
  - intros r Hsize Htotal Hr.
    destruct (paginated_response_inv _ _ _ _ _ _ Hr)
      as (pages & n & Hnz & Hpages & Hn & Hrange).
    fold p in Hpages.
    rewrite (paginated_response_eq _ _ _ _ _ _ Hnz Hpages), Hn in Hr.
    destruct (Z.ltb_spec n 1); [lia|].
    destruct (Z.gtb_spec n pages); [lia|].
    cbn [orb] in Hr. injection Hr as <-.
    assert (Hsmall : count p < 2 ^ 53) by (rewrite Hcount; exact Htotal).
    destruct (num_pages_small p Hsize Hsmall)
      as (pages' & Hpages' & Hexact).
    rewrite Hpages in Hpages'. injection Hpages' as <-.
    destruct Hexact as [Hexact | [Hzero _]]; [|lia].
    change (per_page p) with (default 10 page_size) in Hexact.
    rewrite Hcount in Hexact.
    exists n. unfold pagination. simpl. fold p.
    rewrite Hcount, <- Hexact. repeat split; lia.
Qed.

(** From 2^53 items on the float quotient loses bits: over 2^53 + 1
    items with a page size of 1, [total_pages] is 2^53. *)
Lemma total_pages_rounded (request : Request) (q : QuerySet Row)
    (serializer_class : Row -> pyval) (message : option pyval)
    (status_code : option Z) :
  Z.of_nat (List.length (rows q)) = 2 ^ 53 + 1 ->
  query_page request = page_absent ->
  exists r,
    paginated_response created_at replace_query_param remove_query_param
      request (Some q) serializer_class message (Some 1) status_code =
    Ok r /\
    pagination r "count" = PInt (2 ^ 53 + 1) /\
    pagination r "total_pages" = PInt (2 ^ 53) /\
    ceil_div (2 ^ 53 + 1) 1 = 2 ^ 53 + 1.
Proof.
  intros Htotal Hpage.
  set (p := paginator_for created_at (default 10 (Some 1)) q).
  assert (Hcount : count p = 2 ^ 53 + 1).
  { unfold p. now rewrite count_paginator_for. }
  assert (Hpages : num_pages p = Ok (2 ^ 53)).
  { unfold num_pages. rewrite Hcount. exact ceil_true_divide_rounds. }
  assert (Hnz : default 10 (Some 1) <> 0) by discriminate.
  rewrite (paginated_response_eq _ _ _ _ _ _ Hnz Hpages).
  unfold requested_page. rewrite Hpage.
  eexists. split; [reflexivity|].
  unfold pagination.
  cbn [data item dict_get String.eqb Ascii.eqb Bool.eqb].
  fold p. rewrite Hcount.
  split; [reflexivity|]. split; [reflexivity|].
  apply ceil_div_unique; lia.
Qed.

End Facts.

(** A status code of 404 passed to [paginated_response] is echoed in the
    body, under a response status of 200. *)
Example paginated_404_is_200 :
  exists r,
    paginated_response (fun z : Z => z) same_url_replace same_url_remove
      (request_for page_absent) (Some twenty_five) PInt None None
      (Some 404) = Ok r /\
    APIResponseMixin.status_code r = 200 /\
    item (data r) "status_code" = PInt 404.
Proof.
  eexists. split; [vm_compute; reflexivity|]. split; reflexivity.
Qed.

Lemma C3_paginated_status_is_200_witness :
  exists r,
    paginated_response (fun z : Z => z) same_url_replace same_url_remove
      (request_for page_absent) (Some twenty_five) PInt None None
      (Some 404) = Ok r /\
    APIResponseMixin.status_code r = 200 /\
    item (data r) "status_code" = PInt 404.
Proof.
  pose proof (C3_paginated_status_is_200 (fun z : Z => z)
                same_url_replace same_url_remove
                (request_for page_absent) (Some twenty_five) PInt None
                None 404) as H.
  cbv zeta in H. destruct H as [_ H].
  refine (H twenty_five eq_refl _ _ eq_refl).
  - split; vm_compute; reflexivity.
  - vm_compute. reflexivity.
Defined.

(** C2, as stated, fails: it is not so that every empty queryset gives a
    response with [total_pages] 0, not even for the default call on the
    first page; there [total_pages] is 1. *)
Lemma C2_counterexample :
  ~ (forall (Row : Type) (created_at : Row -> Z)
       (replace_query_param : pystr -> string -> Z -> pystr)
       (remove_query_param : pystr -> string -> pystr)
       (q : QuerySet Row) (serializer_class : Row -> pyval),
       rows q = [] ->
       exists r,
         paginated_response created_at replace_query_param
           remove_query_param (request_for page_absent) (Some q)
           serializer_class None None None = Ok r /\
         item (data r) "data" = PList [] /\
         pagination r "count" = PInt 0 /\
         pagination r "total_pages" = PInt 0 /\
         pagination r "next" = PNone /\
         pagination r "previous" = PNone).
Proof.
  intros H.
  destruct (H Z (fun z => z) same_url_replace same_url_remove
              {| ordered := false; rows := [] |} PInt eq_refl)
    as (r & Hr & _ & _ & Htotal & _).
  vm_compute in Hr. injection Hr as <-.
  vm_compute in Htotal. discriminate Htotal.
Qed.

Lemma C2_empty_queryset_one_page_witness :
  paginated_response (fun z : Z => z) same_url_replace same_url_remove
    (request_for page_absent) (Some {| ordered := false; rows := [] |})
    PInt None None None =
  Ok {| data := PDict [
          ("status", PBool true);
          ("message", PStr (str "Success"));
          ("data", PList []);
          ("status_code", PInt 200);
          ("pagination", PDict [
             ("next", PNone);
             ("previous", PNone);
             ("count", PInt 0);
             ("current_page", PInt 1);
             ("total_pages", PInt 1)])];
        APIResponseMixin.status_code := 200 |}.
Proof.
  apply (C2_empty_queryset_one_page (fun z : Z => z) same_url_replace
           same_url_remove (request_for page_absent)
           {| ordered := false; rows := [] |} PInt None None None).
  - reflexivity.
  - split; vm_compute; reflexivity.
  - left. reflexivity.
Defined.

(** C7, as stated, fails in its general part: [total_pages] is not always
    the ceiling of count/page_size.  Over no item at all, with the
    default page size 10, that ceiling is 0 and [total_pages] is 1. *)
Lemma C7_counterexample :
  ~ (forall (Row : Type) (created_at : Row -> Z)
       (replace_query_param : pystr -> string -> Z -> pystr)
       (remove_query_param : pystr -> string -> pystr)
       (request : Request) (q : QuerySet Row)
       (serializer_class : Row -> pyval) (page_size : Z) (r : Response),
       0 < page_size ->
       paginated_response created_at replace_query_param
         remove_query_param request (Some q) serializer_class None
         (Some page_size) None = Ok r ->
       pagination r "total_pages" =
       PInt (ceil_div (Z.of_nat (List.length (rows q))) page_size)).
Proof.
  intros H.
  specialize (H Z (fun z => z) same_url_replace same_url_remove
                (request_for page_absent)
                {| ordered := true; rows := [] |} PInt 10 _
                eq_refl eq_refl).
  vm_compute in H. discriminate H.
Qed.

Lemma C7_page_counts_witness :
  exists r items,
    paginated_response (fun z : Z => z) same_url_replace same_url_remove
      (request_for (page_int 2)) (Some twenty_five) PInt None None None =
    Ok r /\
    item (data r) "data" = PList items /\
    List.length items = 10%nat /\
    pagination r "count" = PInt 25 /\
    pagination r "current_page" = PInt 2 /\
    pagination r "total_pages" = PInt 3 /\
    pagination r "previous" <> PNone /\
    pagination r "next" <> PNone.
Proof.
  apply (proj1 (C7_page_counts (fun z : Z => z) same_url_replace
                  same_url_remove (request_for (page_int 2)) twenty_five
                  PInt None None None)).
  - reflexivity.
  - reflexivity.
  - reflexivity.
Defined.

End PaginationFacts.

(** * Further properties *)

(** ** The registration validator and its pattern *)

Module ValidatorProperties.
Import Re Rule AuthSerializers PasswordRegex RegistrationFacts.
Import UserRegistrationSerializer.
Local Open Scope string_scope.

Lemma symbol_ascii (c : N) : symbol c = true -> (c < 128)%N.
Proof.
  unfold symbol. rewrite existsb_exists. intros (x & Hin & E).
  apply N.eqb_eq in E. subst x.
  assert (H : forallb (fun x => (x <? 128)%N)
                (str "@$!%*?&#^()-_=+{};:,<.>") = true) by reflexivity.
  rewrite forallb_forall in H. apply N.ltb_lt. auto.
Qed.

(** Above the ASCII range the allowed characters are the decimal digits
    of the Unicode database. *)
Lemma allowed_non_ascii (unicode_decimal : N -> bool) (c : N) :
  (128 <= c)%N -> allowed unicode_decimal c = unicode_decimal c.
Proof.
  intros Hc. unfold allowed, digit, is_decimal.
  assert (uppercase c = false) as ->.
  { unfold uppercase. apply andb_false_iff. right.
    apply N.leb_gt. simpl. lia. }
  assert (lowercase c = false) as ->.
  { unfold lowercase. apply andb_false_iff. right.
    apply N.leb_gt. simpl. lia. }
  assert (symbol c = false) as ->.
  { destruct (symbol c) eqn:E; [|reflexivity].
    apply symbol_ascii in E. lia. }
  assert ((c <? 128)%N = false) as -> by (apply N.ltb_ge; lia).
  now rewrite orb_false_r.
Qed.

(** A character of a string is a character of its [chomp] or the final
    newline. *)
Lemma in_chomp (s : pystr) (c : N) :
  In c s -> In c (chomp s) \/ c = newline.
Proof.
  intros Hin. destruct (chomp_split s) as (post & E & Hend).
  rewrite E in Hin. apply in_app_or in Hin as [Hin|Hin]; [now left|].
  right. destruct (at_end_cases _ Hend) as [-> | ->]; simpl in Hin.
  - contradiction.
  - destruct Hin as [<-|[]]. reflexivity.
Qed.

Lemma length_chomp (s : pystr) :
  List.length (chomp s) <= List.length s <= S (List.length (chomp s)).
Proof.
  destruct (chomp_split s) as (post & E & Hend).
  rewrite E at 2 3. rewrite length_app.
  destruct (at_end_cases _ Hend) as [-> | ->]; simpl; lia.
Qed.

Lemma pattern_accepts_iff (unicode_decimal : N -> bool) (s : pystr) :
  match_str unicode_decimal password_regex s = true <->
  8 <= List.length (chomp s) <= 16 /\
  (forall c, In c (chomp s) -> allowed unicode_decimal c = true) /\
  (exists c, In c (chomp s) /\ lowercase c = true) /\
  (exists c, In c (chomp s) /\ uppercase c = true) /\
  (exists c, In c (chomp s) /\ digit unicode_decimal c = true) /\
  (exists c, In c (chomp s) /\ symbol c = true).
Proof.
  rewrite password_regex_spec. unfold composed_rule.
  rewrite !andb_true_iff, !Nat.leb_le, forallb_forall, !existsb_exists.
  tauto.
Qed.

(** X1: what the pattern of line 29 accepts: a string that, without the
    newline that may end it, has 8 to 16 characters, all of them letters
    [A-Za-z], decimal digits or symbols of the set, and among them a
    lowercase letter, an uppercase letter, a digit and a symbol. *)
Theorem password_pattern_accepts (unicode_decimal : N -> bool)
    (s : pystr) :
  match_str unicode_decimal password_regex s = true <->
  8 <= List.length (chomp s) <= 16 /\
  (forall c, In c (chomp s) -> allowed unicode_decimal c = true) /\
  (exists c, In c (chomp s) /\ lowercase c = true) /\
  (exists c, In c (chomp s) /\ uppercase c = true) /\
  (exists c, In c (chomp s) /\ digit unicode_decimal c = true) /\
  (exists c, In c (chomp s) /\ symbol c = true).
Proof. apply pattern_accepts_iff. Qed.

(** X2: the validator accepts exactly when the raw password is a string,
    matches the pattern and is the confirmation; what it returns is the
    confirmation it was given. *)
Theorem registration_accepts_iff (unicode_decimal : N -> bool)
    (self : Serializer) (value v : pystr) :
  validate_password_confirmation unicode_decimal self value = Ok v <->
  v = value /\
  dict_get (get_initial self) "password" = PStr value /\
  match_str unicode_decimal password_regex value = true.
Proof. apply validate_accepts_iff. Qed.

(** X3: the validator raises [TypeError] exactly when the raw password is
    not a string: absent, null, a number, a list, an object. *)
Theorem registration_TypeError_iff (unicode_decimal : N -> bool)
    (self : Serializer) (value : pystr) :
  validate_password_confirmation unicode_decimal self value =
    Raise TypeError <->
  isinstance_str (dict_get (get_initial self) "password") = false.
Proof.
  rewrite registration_validate_cases.
  destruct (dict_get (get_initial self) "password") as [| | |p| |];
    simpl; try tauto.
  split; [|discriminate].
  destruct (match_str unicode_decimal password_regex p);
    [destruct (pystr_eqb p value)|]; discriminate.
Qed.

(** X4: every character above the ASCII range in an accepted password is a
    decimal digit of the Unicode database, and such digits are let
    through, as a character and as the digit the rule asks for: the
    password "Abcdefg!" followed by one character above the ASCII range
    is accepted exactly when that character is a decimal digit of the
    Unicode database.  Accented or non-Latin letters are refused,
    non-ASCII digits are not. *)
Theorem accepted_non_ascii_is_digit (unicode_decimal : N -> bool) :
  (forall (p : pystr) (c : N),
     match_str unicode_decimal password_regex p = true ->
     In c p -> (128 <= c)%N ->
     unicode_decimal c = true) /\
  (forall c : N,
     (128 <= c)%N ->
     match_str unicode_decimal password_regex
       (str "Abcdefg!" ++ [c])%list = unicode_decimal c).
Proof.
  split.
  - intros p c Hm Hin Hc. apply matches_chomp in Hm as [_ Hall].
    rewrite forallb_forall in Hall.
    destruct (in_chomp _ _ Hin) as [Hin' | ->];
      [|unfold newline in Hc; lia].
    rewrite <- (allowed_non_ascii unicode_decimal Hc). auto.
  - intros c Hc.
    assert (Hn : (c =? newline)%N = false).
    { apply N.eqb_neq. unfold newline. lia. }
    rewrite password_regex_spec.
    assert (chomp (str "Abcdefg!" ++ [c])%list =
            (str "Abcdefg!" ++ [c])%list) as ->.
    { change (str "Abcdefg!" ++ [c])%list
        with (str "Abcdefg" ++ [33%N; c])%list.
      simpl. rewrite Hn. reflexivity. }
    unfold composed_rule.
    rewrite !existsb_app, forallb_app, length_app.
    cbn [existsb forallb List.length].
    rewrite (allowed_non_ascii unicode_decimal Hc).
    assert (digit unicode_decimal c = unicode_decimal c) as ->.
    { unfold digit, is_decimal.
      assert ((c <? 128)%N = false) as -> by (apply N.ltb_ge; lia).
      reflexivity. }
    simpl. destruct (unicode_decimal c); reflexivity.
Qed.

Lemma accepted_non_ascii_is_digit_witness :
  match_str arabic_indic_digits password_regex
    (str "Abcdefg!" ++ [1633%N])%list = true /\
  arabic_indic_digits 1633 = true.
Proof.
  split; [reflexivity|].
  apply (proj1 (accepted_non_ascii_is_digit arabic_indic_digits)
           (str "Abcdefg!" ++ [1633%N])%list 1633%N).
  - reflexivity.
  - apply in_or_app. right. now left.
  - discriminate.
Defined.

(** X5: an accepted password has 8 to 17 characters, 17 only when the last
    one is a newline; so it is always within the bounds the [password]
    field declares, and [max_length=128] never decides. *)
Theorem accepted_length (unicode_decimal : N -> bool) (p : pystr) :
  match_str unicode_decimal password_regex p = true ->
  8 <= List.length p <= 17 /\
  (List.length p = 17 -> p = (chomp p ++ [newline])%list) /\
  within_bounds password p.
Proof.
  intros Hm.
  pose proof (proj1 (pattern_accepts_iff unicode_decimal p) Hm)
    as (Hlen & _).
  pose proof (length_chomp p) as Hchomp.
  assert (Hbounds : 8 <= List.length p <= 17) by lia.
  split; [exact Hbounds|]. split.
  - intros H17. destruct (chomp_split p) as (post & E & Hend).
    destruct (at_end_cases _ Hend) as [-> | ->]; [|exact E].
    rewrite app_nil_r in E. rewrite <- E in Hlen. lia.
  - unfold within_bounds. simpl. lia.
Qed.

Lemma accepted_length_witness :
  8 <= List.length (str "Abcdef1!") <= 17.
Proof.
  apply (accepted_length ascii_digits_only (str "Abcdef1!")).
  reflexivity.
Defined.

(** X6: whatever the registration validator accepts, the validator of the
    password reset accepts too, and the converse fails: the reset accepts
    every password that is its own confirmation, whatever it is made of,
    so that some password and confirmation are accepted by the reset and
    refused as invalid by the registration. *)
Theorem reset_accepts_what_registration_accepts :
  (forall unicode_decimal self value v,
     validate_password_confirmation unicode_decimal self value = Ok v ->
     PasswordResetConfirmationSerializer.validate_password_confirmation
       self value = Ok v) /\
  (forall p,
     PasswordResetConfirmationSerializer.validate_password_confirmation
       (with_password p) p = Ok p) /\
  (forall unicode_decimal, exists self value,
     PasswordResetConfirmationSerializer.validate_password_confirmation
       self value = Ok value /\
     validate_password_confirmation unicode_decimal self value =
       Raise (ValidationError InvalidPassword)) /\
  ~ (forall unicode_decimal self value v,
       PasswordResetConfirmationSerializer.validate_password_confirmation
         self value = Ok v ->
       validate_password_confirmation unicode_decimal self value = Ok v).
Proof.
  split; [|split; [|split]].
  - intros nd self value v H.
    apply validate_accepts_iff in H as (-> & Hp & _).
    destruct (ResetFacts.reset_validate_cases self value)
      as [[_ Hv]|[Hne _]]; [exact Hv|contradiction].
  - intros p.
    destruct (ResetFacts.reset_validate_cases (with_password p) p)
      as [[_ Hv]|[Hne _]]; [exact Hv|].
    exfalso. apply Hne. reflexivity.
  - intros nd. exists (with_password (str "abc")), (str "abc").
    split; reflexivity.
  - intros H.
    specialize (H ascii_digits_only (with_password (str "abc"))
                  (str "abc") (str "abc") eq_refl).
    discriminate H.
Qed.

Lemma reset_accepts_what_registration_accepts_witness :
  PasswordResetConfirmationSerializer.validate_password_confirmation
    (with_password (str "Abcdef1!")) (str "Abcdef1!") =
  Ok (str "Abcdef1!").
Proof.
  apply (proj1 reset_accepts_what_registration_accepts ascii_digits_only).
  reflexivity.
Defined.

End ValidatorProperties.

(** ** [UserRegistrationSerializer.create] and
    [LoginResponseSerializer.get_expires_in] *)

Module CreateProperties.
Import AuthSerializers.
Import UserRegistrationSerializer.
Local Open Scope string_scope.

Lemma dict_has_remove (d : dict) (key : string) :
  dict_has (dict_remove d key) key = false.
Proof.
  induction d as [|[k v] d IH]; simpl; [reflexivity|].
  destruct (String.eqb k key) eqn:E; simpl; [exact IH|].
  now rewrite E, IH.
Qed.

Lemma dict_get_remove_other (d : dict) (key k : string) :
  k <> key -> dict_get (dict_remove d key) k = dict_get d k.
Proof.
  intros Hk. induction d as [|[k' v] d IH]; simpl; [reflexivity|].
  destruct (String.eqb k' key) eqn:E; simpl.
  - apply String.eqb_eq in E. subst k'.
    destruct (String.eqb_spec key k); [congruence|exact IH].
  - destruct (String.eqb k' k); [reflexivity|exact IH].
Qed.

Lemma dict_has_remove_other (d : dict) (key k : string) :
  k <> key -> dict_has (dict_remove d key) k = dict_has d k.
Proof.
  intros Hk. induction d as [|[k' v] d IH]; simpl; [reflexivity|].
  destruct (String.eqb k' key) eqn:E; simpl.
  - apply String.eqb_eq in E. subst k'.
    destruct (String.eqb_spec key k); [congruence|exact IH].
  - now rewrite IH.
Qed.

Lemma dict_keys_remove (d : dict) (key : string) :
  dict_keys (dict_remove d key) =
  filter (fun k => negb (String.eqb k key)) (dict_keys d).
Proof.
  induction d as [|[k v] d IH]; simpl; [reflexivity|].
  destruct (String.eqb k key); simpl; now rewrite IH.
Qed.

Lemma dict_get_set_other (d : dict) (key k : string) (v : pyval) :
  k <> key -> dict_get (dict_set d k v) key = dict_get d key.
Proof.
  intros Hk. induction d as [|[k' w] d IH]; simpl.
  - destruct (String.eqb_spec k key); [contradiction|reflexivity].
  - destruct (String.eqb_spec k' k) as [->|Hk']; simpl.
    + destruct (String.eqb_spec k key); [contradiction|reflexivity].
    + destruct (String.eqb k' key); [reflexivity|exact IH].
Qed.

Section Create.
Variables User Exc : Type.
Variable create_user : dict -> User + Exc.

(** X7: [create] hands [create_user] the validated data without the
    confirmation: every other field with its value, in the same order,
    the password among them; and when the confirmation is missing it
    ends with [KeyError], the data untouched and [create_user] not
    called. *)
Theorem create_drops_the_confirmation (validated_data : dict) :
  let key := "password_confirmation" in
  let rest := dict_remove validated_data key in
  (dict_has validated_data key = true ->
   create create_user validated_data =
     (rest,
      match create_user rest with
      | inl user => Created user
      | inr e => CreateUserRaised e
      end) /\
   dict_has rest key = false /\
   (forall k, k <> key ->
      dict_has rest k = dict_has validated_data k /\
      dict_get rest k = dict_get validated_data k) /\
   dict_keys rest =
     filter (fun k => negb (String.eqb k key)) (dict_keys validated_data)) /\
  (dict_has validated_data key = false ->
   create create_user validated_data = (validated_data, KeyError key)).
Proof.
  intros key rest. split.
  - intros Hhas. split.
    + unfold create, dict_pop. fold key. now rewrite Hhas.
    + split; [apply dict_has_remove|]. split.
      * intros k Hk. split.
        -- now apply dict_has_remove_other.
        -- now apply dict_get_remove_other.
      * apply dict_keys_remove.
  - intros Hhas. unfold create, dict_pop. fold key. now rewrite Hhas.
Qed.

End Create.

Lemma create_drops_the_confirmation_witness :
  create (fun d => inl (B:=unit) d)
    [("username", PStr (str "ama"));
     ("password", PStr (str "Abcdef1!"));
     ("password_confirmation", PStr (str "Abcdef1!"))] =
  ([("username", PStr (str "ama")); ("password", PStr (str "Abcdef1!"))],
   Created [("username", PStr (str "ama"));
            ("password", PStr (str "Abcdef1!"))]).
Proof.
  apply (proj1 (create_drops_the_confirmation (fun d => inl (B:=unit) d)
                  [("username", PStr (str "ama"));
                   ("password", PStr (str "Abcdef1!"));
                   ("password_confirmation", PStr (str "Abcdef1!"))])).
  reflexivity.
Defined.

(** X8: [get_expires_in] reads the [expires_in] entry and nothing else: it is
    [None] for an object without the entry, the value last stored under
    the key otherwise, and an entry under another key does not change
    it. *)
Theorem get_expires_in_reads_one_entry (obj : dict) (v : pyval) :
  (dict_has obj "expires_in" = false ->
   LoginResponseSerializer.get_expires_in obj = PNone) /\
  LoginResponseSerializer.get_expires_in (dict_set obj "expires_in" v) = v /\
  (forall k,
     k <> "expires_in" ->
     LoginResponseSerializer.get_expires_in (dict_set obj k v) =
     LoginResponseSerializer.get_expires_in obj).
Proof.
  unfold LoginResponseSerializer.get_expires_in. split.
  - apply dict_get_absent.
  - split; [apply dict_get_set_same|].
    intros k Hk. now apply dict_get_set_other.
Qed.

Lemma get_expires_in_reads_one_entry_witness :
  LoginResponseSerializer.get_expires_in
    [("access_token", PStr (str "a")); ("refresh_token", PStr (str "r"))] =
  PNone.
Proof.
  apply (proj1 (get_expires_in_reads_one_entry
                  [("access_token", PStr (str "a"));
                   ("refresh_token", PStr (str "r"))] PNone)).
  reflexivity.
Defined.

End CreateProperties.

(** ** The envelopes of [APIResponseMixin] *)

Module EnvelopeProperties.
Import APIResponseMixin ResponseFacts.
Local Open Scope string_scope.
Local Open Scope Z_scope.

(** X9: a string passed as [errors] gives what its one-element list
    gives, whatever the status; and for a status [Response] takes, 100
    to 599, the [errors] entry of the envelope is never a bare string,
    and passing it to [error] again gives the same response. *)
Theorem error_normalises_errors (message : pyval) (errors : option pyval)
    (status_code : option Z) :
  (forall s,
     error message (Some (PStr s)) status_code =
     error message (Some (PList [PStr s])) status_code) /\
  (100 <= default 400 status_code <= 599 ->
   exists r,
     error message errors status_code = Ok r /\
     isinstance_str (item (data r) "errors") = false /\
     error message (Some (item (data r) "errors")) status_code = Ok r).
Proof.
  split; [reflexivity|].
  intros Hcode. unfold error. cbv zeta.
  change HTTP_400_BAD_REQUEST with 400.
  rewrite (Response_init_valid _ Hcode).
  eexists. split; [reflexivity|].
  cbn [data item dict_get String.eqb Ascii.eqb Bool.eqb].
  rewrite (Response_init_valid _ Hcode).
  destruct errors as [[| | | | |]|]; split; reflexivity.
Qed.

Lemma error_normalises_errors_witness :
  exists r,
    error (PStr (str "Invalid input")) (Some (PStr (str "email taken")))
      (Some 409) = Ok r /\
    item (data r) "errors" = PList [PStr (str "email taken")] /\
    error (PStr (str "Invalid input")) (Some (item (data r) "errors"))
      (Some 409) = Ok r.
Proof.
  destruct (proj2 (error_normalises_errors
                     (PStr (str "Invalid input"))
                     (Some (PStr (str "email taken"))) (Some 409)))
    as (r & Hr & _ & Hagain).
  - simpl. lia.
  - exists r. split; [exact Hr|]. split; [|exact Hagain].
    injection Hr as <-. reflexivity.
Defined.

End EnvelopeProperties.

(** ** The pages of [paginated_response] *)

Module PageProperties.
Import APIResponseMixin PaginationFacts.
Local Open Scope string_scope.
Local Open Scope Z_scope.

Lemma firstn_app_skipn {A} (a b : nat) (l : list A) :
  (firstn a l ++ firstn b (skipn a l))%list = firstn (a + b) l.
Proof.
  revert l. induction a as [|a IH]; intros l; [reflexivity|].
  destruct l as [|x l]; simpl.
  - now rewrite firstn_nil.
  - now rewrite IH.
Qed.

Lemma flat_map_map {A B C} (f : B -> C) (g : A -> list B) (l : list A) :
  flat_map (fun a => map f (g a)) l = map f (flat_map g l).
Proof.
  induction l as [|a l IH]; simpl; [reflexivity|].
  now rewrite map_app, IH.
Qed.

Lemma flat_map_eq_in {A B} (f g : A -> list B) (l : list A) :
  (forall a, In a l -> f a = g a) -> flat_map f l = flat_map g l.
Proof.
  induction l as [|a l IH]; simpl; intros H; [reflexivity|].
  rewrite (H a) by now left. rewrite IH; [reflexivity|].
  intros b Hb. apply H. now right.
Qed.

Section Pages.
Variable Row : Type.
Variable created_at : Row -> Z.
Variable replace_query_param : pystr -> string -> Z -> pystr.
Variable remove_query_param : pystr -> string -> pystr.

(** The first [k] pages are the first [k * per_page] rows. *)
Lemma first_pages (p : Paginator Row) (k : nat) :
  0 < per_page p ->
  flat_map (fun i => rows_of p (Z.of_nat i)) (seq 1 k) =
  firstn (Z.to_nat (Z.min (Z.of_nat k * per_page p) (count p)))
    (object_list p).
Proof.
  intros Hpp. induction k as [|k IH].
  - simpl. replace (Z.min 0 (count p)) with 0 by (unfold count; lia).
    reflexivity.
  - rewrite seq_S, flat_map_app, IH. cbn [flat_map]. rewrite app_nil_r.
    unfold rows_of, slice.
    replace (Z.of_nat (1 + k)) with (Z.of_nat k + 1) by lia.
    replace (Z.of_nat (S k)) with (Z.of_nat k + 1) by lia.
    replace (Z.of_nat k + 1 - 1) with (Z.of_nat k) by lia.
    destruct (Z_le_gt_dec (Z.of_nat k * per_page p) (count p)) as [Hle|Hgt].
    + rewrite (Z.min_l (Z.of_nat k * per_page p)) by exact Hle.
      rewrite firstn_app_skipn. f_equal. nia.
    + rewrite !Z.min_r by nia.
      replace (Z.to_nat (count p - Z.of_nat k * per_page p)) with 0%nat
        by lia.
      simpl. apply app_nil_r.
Qed.

(** Enough pages to hold the rows of a paginator, one after the other,
    are its rows. *)
Lemma all_pages (p : Paginator Row) (pages : Z) :
  0 < per_page p -> 0 <= pages -> count p <= pages * per_page p ->
  flat_map (fun i => rows_of p (Z.of_nat i)) (seq 1 (Z.to_nat pages)) =
  object_list p.
Proof.
  intros Hpp Hpages Hcover. rewrite first_pages by exact Hpp.
  apply firstn_all2. rewrite Z2Nat.id by exact Hpages.
  rewrite Z.min_r by exact Hcover. unfold count. lia.
Qed.

(** The exact number of pages holds the rows. *)
Lemma exact_pages_cover (total size : Z) :
  0 <= total -> 0 < size ->
  total <= (if total =? 0 then 1 else ceil_div total size) * size.
Proof.
  intros Ht Hs. destruct (Z.eqb_spec total 0) as [E|E]; [lia|].
  apply (ceil_div_spec total Hs).
Qed.

(** The bounds of a page between 1 and the exact number of pages. *)
Lemma page_bounds (total size n : Z) :
  0 <= total -> 0 < size ->
  1 <= n <= (if total =? 0 then 1 else ceil_div total size) ->
  0 <= (n - 1) * size <= Z.min (n * size) total /\
  (0 < total -> (n - 1) * size < total) /\
  (n < (if total =? 0 then 1 else ceil_div total size) ->
   n * size < total).
Proof.
  intros Ht Hs Hn.
  destruct (Z.eqb_spec total 0) as [E|E].
  - assert (n = 1) by lia. subst n. rewrite E. lia.
  - pose proof (ceil_div_spec total Hs) as Hceil.
    split; [|split]; nia.
Qed.

(** Ordering by [created_at] keeps the rows and sorts them. *)
Lemma insert_by_permutation (x : Row) (l : list Row) :
  Permutation (insert_by created_at x l) (x :: l).
Proof.
  induction l as [|y l IH]; simpl; [reflexivity|].
  destruct (created_at x <=? created_at y); [reflexivity|].
  rewrite IH. apply perm_swap.
Qed.

Lemma order_by_permutation (q : QuerySet Row) :
  Permutation (rows (order_by_created_at created_at q)) (rows q).
Proof.
  simpl. induction (rows q) as [|x l IH]; simpl; [reflexivity|].
  rewrite insert_by_permutation. now constructor.
Qed.

Lemma insert_by_hd (a x : Row) (l : list Row) :
  created_at a <= created_at x ->
  HdRel (fun u v => created_at u <= created_at v) a l ->
  HdRel (fun u v => created_at u <= created_at v) a
    (insert_by created_at x l).
Proof.
  intros Hax Hal. destruct l as [|y l]; simpl; [now constructor|].
  destruct (created_at x <=? created_at y); constructor; [exact Hax|].
  now inversion Hal.
Qed.

Lemma insert_by_sorted (x : Row) (l : list Row) :
  Sorted (fun u v => created_at u <= created_at v) l ->
  Sorted (fun u v => created_at u <= created_at v)
    (insert_by created_at x l).
Proof.
  induction 1 as [|y l Hs IH Hhd]; simpl.
  - repeat constructor.
  - destruct (Z.leb_spec (created_at x) (created_at y)) as [Hle|Hgt].
    + constructor; [now constructor|now constructor].
    + constructor; [exact IH|]. apply insert_by_hd; [lia|exact Hhd].
Qed.

Lemma order_by_sorted (q : QuerySet Row) :
  StronglySorted (fun u v => created_at u <= created_at v)
    (rows (order_by_created_at created_at q)).
Proof.
  apply Sorted_StronglySorted.
  - intros a b c Hab Hbc. lia.
  - simpl. induction (rows q) as [|x l IH]; simpl; [constructor|].
    now apply insert_by_sorted.
Qed.

(** Rows with distinct [created_at] have one ascending order. *)
Lemma sorted_unique (l1 l2 : list Row) :
  NoDup (map created_at l1) ->
  Permutation l1 l2 ->
  StronglySorted (fun u v => created_at u <= created_at v) l1 ->
  StronglySorted (fun u v => created_at u <= created_at v) l2 ->
  l1 = l2.
Proof.
  revert l2. induction l1 as [|x l1 IH]; intros l2 Hnd Hperm Hs1 Hs2.
  - apply Permutation_nil in Hperm. now subst.
  - destruct l2 as [|y l2].
    { apply Permutation_sym, Permutation_nil in Hperm. discriminate. }
    apply StronglySorted_inv in Hs1 as [Hs1 Hx].
    apply StronglySorted_inv in Hs2 as [Hs2 Hy].
    rewrite Forall_forall in Hx, Hy.
    cbn [map] in Hnd. apply NoDup_cons_iff in Hnd as [Hnotin Hnd].
    assert (Hxy : x = y).
    { assert (Hin1 : In y (x :: l1)).
      { apply (Permutation_in y (Permutation_sym Hperm)). now left. }
      destruct Hin1 as [E|Hin1]; [exact E|].
      assert (Hin2 : In x (y :: l2)).
      { apply (Permutation_in x Hperm). now left. }
      destruct Hin2 as [E|Hin2]; [now symmetry|].
      exfalso. apply Hnotin.
      replace (created_at x) with (created_at y)
        by (specialize (Hx _ Hin1); specialize (Hy _ Hin2); lia).
      now apply in_map. }
    subst y. f_equal.
    apply IH; try assumption.
    now apply Permutation_cons_inv in Hperm.
Qed.

(** Two requests find the rows of an unordered queryset in the same
    ascending order when its [created_at] values are distinct and its
    rows the same. *)
Lemma order_by_snapshot (table : list Row) (q : QuerySet Row) :
  NoDup (map created_at table) ->
  Permutation (rows q) table ->
  rows (order_by_created_at created_at q) =
  fold_right (insert_by created_at) [] table.
Proof.
  intros Hnd Hperm.
  change (fold_right (insert_by created_at) [] table)
    with (rows (order_by_created_at created_at
                  {| ordered := false; rows := table |})).
  apply sorted_unique.
  - apply (Permutation_NoDup (l := map created_at table)); [|exact Hnd].
    apply Permutation_map. symmetry.
    rewrite order_by_permutation. exact Hperm.
  - rewrite !order_by_permutation. exact Hperm.
  - apply order_by_sorted.
  - apply order_by_sorted.
Qed.

Section Response.
Variable request : Request.
Variable q : QuerySet Row.
Variable serializer_class : Row -> pyval.
Variable message : option pyval.
Variables page_size status_code : option Z.

(** The number of pages of a collection of fewer than 2^53 rows, for a
    page size between 1 and 2^1075. *)
Lemma pages_of (q' : QuerySet Row) :
  0 < default 10 page_size < 2 ^ 1075 ->
  Z.of_nat (List.length (rows q')) < 2 ^ 53 ->
  num_pages (paginator_for created_at (default 10 page_size) q') =
  Ok (if Z.of_nat (List.length (rows q')) =? 0 then 1
      else ceil_div (Z.of_nat (List.length (rows q')))
             (default 10 page_size)).
Proof.
  intros Hsize Htotal.
  rewrite <- (count_paginator_for created_at (default 10 page_size) q').
  apply num_pages_exact; [exact Hsize|].
  now rewrite count_paginator_for.
Qed.

(** The items of a page that is served are its rows, serialized. *)
Lemma page_items_served (q' : QuerySet Row) (n : Z) :
  0 < default 10 page_size < 2 ^ 1075 ->
  Z.of_nat (List.length (rows q')) < 2 ^ 53 ->
  1 <= n <= (if Z.of_nat (List.length (rows q')) =? 0 then 1
             else ceil_div (Z.of_nat (List.length (rows q')))
                    (default 10 page_size)) ->
  page_items
    (paginated_response created_at replace_query_param remove_query_param
       (with_page request n) (Some q') serializer_class message page_size
       status_code) =
  map serializer_class
    (rows_of (paginator_for created_at (default 10 page_size) q') n).
Proof.
  intros Hsize Htotal Hn.
  assert (Hnz : default 10 page_size <> 0) by lia.
  rewrite (paginated_response_eq created_at replace_query_param
             remove_query_param (with_page request n) q' serializer_class
             message page_size status_code Hnz (pages_of q' Hsize Htotal)).
  cbn [requested_page with_page query_page].
  destruct (Z.ltb_spec n 1); [lia|].
  match goal with
  | |- context [n >? ?pages] => destruct (Z.gtb_spec n pages); [lia|]
  end.
  reflexivity.
Qed.

(** X10: for a page size between 1 and 2^1075 and fewer than 2^53 rows,
    [paginated_response] serves the pages 1 to the number of pages (the
    rows over the page size, rounded up; one page for no row) and no
    other: a page number outside that range, or a [page] parameter that
    is no number, raises [NotFound]; a request without the parameter
    gets page 1, and [last] gets the last page. *)
Theorem pages_served_and_refused :
  let size := default 10 page_size in
  let total := Z.of_nat (List.length (rows q)) in
  let pages := if total =? 0 then 1 else ceil_div total size in
  let respond rq :=
    paginated_response created_at replace_query_param remove_query_param
      rq (Some q) serializer_class message page_size status_code in
  0 < size < 2 ^ 1075 ->
  total < 2 ^ 53 ->
  (forall n,
     1 <= n <= pages ->
     exists r,
       respond (with_page request n) = Ok r /\
       pagination r "current_page" = PInt n /\
       pagination r "total_pages" = PInt pages) /\
  (forall n,
     n < 1 \/ pages < n ->
     respond (with_page request n) = Raise NotFound) /\
  (query_page request = page_invalid -> respond request = Raise NotFound) /\
  (query_page request = page_absent ->
   respond request = respond (with_page request 1)) /\
  (query_page request = page_last ->
   respond request = respond (with_page request pages)).
Proof.
  intros size total pages respond Hsize Htotal. subst respond.
  assert (Hnz : default 10 page_size <> 0) by (subst size; lia).
  pose proof (pages_of q Hsize Htotal) as Hpages.
  fold size total pages in Hpages.
  assert (Hge : 1 <= pages).
  { apply exact_pages_ge_one; [subst total; lia|apply Hsize]. }
  assert (Heq := fun rq =>
    paginated_response_eq created_at replace_query_param
      remove_query_param rq q serializer_class message page_size
      status_code Hnz Hpages).
  split; [|split; [|split; [|split]]].
  - intros n Hn. rewrite Heq.
    cbn [requested_page with_page query_page].
    destruct (Z.ltb_spec n 1); [lia|].
    destruct (Z.gtb_spec n pages); [lia|]. cbn [orb].
    eexists. split; [reflexivity|]. split; reflexivity.
  - intros n Hn. rewrite Heq.
    cbn [requested_page with_page query_page].
    destruct (Z.ltb_spec n 1); [reflexivity|].
    destruct (Z.gtb_spec n pages); [reflexivity|lia].
  - intros Hq. rewrite Heq. unfold requested_page. now rewrite Hq.
  - intros Hq. rewrite !Heq. unfold requested_page. now rewrite Hq.
  - intros Hq. rewrite !Heq. unfold requested_page. now rewrite Hq.
Qed.

(** X11: for a page size between 1 and 2^1075 and fewer than 2^53 rows,
    page [n] holds [page_size] items, or what is left of the collection
    after the pages before it: every page but the last is full, and no
    page of a collection that is not empty is empty. *)
Theorem page_lengths (n : Z) :
  let size := default 10 page_size in
  let total := Z.of_nat (List.length (rows q)) in
  let pages := if total =? 0 then 1 else ceil_div total size in
  let items :=
    page_items
      (paginated_response created_at replace_query_param
         remove_query_param (with_page request n) (Some q) serializer_class
         message page_size status_code) in
  0 < size < 2 ^ 1075 ->
  total < 2 ^ 53 ->
  1 <= n <= pages ->
  Z.of_nat (List.length items) = Z.min size (total - (n - 1) * size) /\
  (n < pages -> Z.of_nat (List.length items) = size) /\
  (0 < total -> 1 <= Z.of_nat (List.length items)).
Proof.
  intros size total pages items Hsize Htotal Hn. subst items.
  rewrite page_items_served by assumption. rewrite length_map.
  set (p := paginator_for created_at (default 10 page_size) q) in *.
  assert (Hcount : count p = total) by apply count_paginator_for.
  assert (Ht : 0 <= total) by (subst total; lia).
  destruct (page_bounds Ht (proj1 Hsize) Hn) as (Hb & Hpos & Hfull).
  assert (Hlen : Z.of_nat (List.length (rows_of p n)) =
                 Z.min (n * size) total - (n - 1) * size).
  { unfold rows_of. rewrite Hcount.
    change (per_page p) with size.
    apply length_slice; [exact Hb|].
    fold (count p). rewrite Hcount. lia. }
  rewrite Hlen. repeat split; lia.
Qed.

(** X12: the links of a response: [next] is null exactly on the last page and
    [previous] exactly on the first; otherwise [next] is the request URL
    with [page] set to the next number, and [previous] the URL with
    [page] set to the number before, or without [page] when that number
    is 1. *)
Theorem links_of_a_page (r : Response) :
  paginated_response created_at replace_query_param remove_query_param
    request (Some q) serializer_class message page_size status_code =
    Ok r ->
  exists n pages,
    pagination r "current_page" = PInt n /\
    pagination r "total_pages" = PInt pages /\
    1 <= n <= pages /\
    (pagination r "next" = PNone <-> n = pages) /\
    (pagination r "previous" = PNone <-> n = 1) /\
    (n < pages ->
     pagination r "next" =
     PStr (replace_query_param (build_absolute_uri request) "page"
             (n + 1))) /\
    (n = 2 ->
     pagination r "previous" =
     PStr (remove_query_param (build_absolute_uri request) "page")) /\
    (2 < n ->
     pagination r "previous" =
     PStr (replace_query_param (build_absolute_uri request) "page"
             (n - 1))).
Proof.
  intros Hr.
  destruct (paginated_response_inv _ _ _ _ _ _ _ _ _ Hr)
    as (pages & n & Hnz & Hpages & Hreq & Hn).
  rewrite (paginated_response_eq created_at replace_query_param
             remove_query_param request q serializer_class message
             page_size status_code Hnz Hpages), Hreq in Hr.
  destruct (Z.ltb_spec n 1); [lia|].
  destruct (Z.gtb_spec n pages); [lia|]. cbn [orb] in Hr.
  injection Hr as <-.
  exists n, pages.
  unfold pagination. cbn [data item dict_get String.eqb Ascii.eqb Bool.eqb].
  split; [reflexivity|]. split; [reflexivity|]. split; [exact Hn|].
  destruct (Z.ltb_spec n pages);
    destruct (Z.gtb_spec n 1);
    destruct (Z.eqb_spec (n - 1) 1);
    repeat split; intros; try reflexivity; try discriminate;
    try lia.
Qed.

(** X14: the rows of a page that [paginated_response] returns are a
    slice, from row [(n - 1) * page_size] up to row [n * page_size], of
    the rows as this request lists them: in ascending order of
    [created_at] when the queryset has no ordering, and in the order of
    the queryset when it has one; no row of the queryset is missing from
    the listing and none comes twice. *)
Theorem pages_in_order (r : Response) :
  let size := default 10 page_size in
  let total := Z.of_nat (List.length (rows q)) in
  paginated_response created_at replace_query_param remove_query_param
    request (Some q) serializer_class message page_size status_code =
    Ok r ->
  exists (n : Z) (listed : list Row),
    pagination r "current_page" = PInt n /\
    item (data r) "data" =
      PList (map serializer_class
               (slice listed ((n - 1) * size) (Z.min (n * size) total))) /\
    Permutation listed (rows q) /\
    (ordered q = true -> listed = rows q) /\
    (ordered q = false ->
     StronglySorted (fun u v => created_at u <= created_at v) listed).
Proof.
  intros size total Hr.
  destruct (paginated_response_inv _ _ _ _ _ _ _ _ _ Hr)
    as (pages & n & Hnz & Hpages & Hreq & Hn).
  rewrite (paginated_response_eq created_at replace_query_param
             remove_query_param request q serializer_class message
             page_size status_code Hnz Hpages), Hreq in Hr.
  destruct (Z.ltb_spec n 1); [lia|].
  destruct (Z.gtb_spec n pages); [lia|]. cbn [orb] in Hr.
  injection Hr as <-.
  set (p := paginator_for created_at (default 10 page_size) q).
  exists n, (object_list p).
  split; [reflexivity|]. split.
  - cbn [data item dict_get String.eqb Ascii.eqb Bool.eqb].
    pose proof (count_paginator_for created_at (default 10 page_size) q)
      as Hcount.
    fold p in Hcount. unfold rows_of. rewrite Hcount. reflexivity.
  - unfold p, paginator_for. cbn [object_list].
    destruct (ordered q); cbn [negb].
    + split; [reflexivity|]. split; [reflexivity|discriminate].
    + split; [apply order_by_permutation|].
      split; [discriminate|]. intros _. apply order_by_sorted.
Qed.

End Response.

(** X13: the pages of a table, asked for one request after the other.
    Each request evaluates the queryset anew.  When every request finds
    the rows of the same table, a page size between 1 and 2^1075 and
    fewer than 2^53 rows, then: if the queryset has no ordering and no
    two rows have the same [created_at], the [data] of the pages 1 to
    the number of pages, one after the other, are the rows of the table
    in ascending order of [created_at], each serialized once; and if
    the queryset has an ordering and every request finds the rows in the
    same order, they are the rows in that order. *)
Theorem pages_partition_the_rows (request : Request) (table : list Row)
    (snapshot : nat -> QuerySet Row) (serializer_class : Row -> pyval)
    (message : option pyval) (page_size status_code : option Z) :
  let size := default 10 page_size in
  let total := Z.of_nat (List.length table) in
  let pages := if total =? 0 then 1 else ceil_div total size in
  let items i :=
    page_items
      (paginated_response created_at replace_query_param
         remove_query_param (with_page request (Z.of_nat i))
         (Some (snapshot i)) serializer_class message page_size
         status_code) in
  0 < size < 2 ^ 1075 ->
  total < 2 ^ 53 ->
  (forall i, Permutation (rows (snapshot i)) table) ->
  ((forall i, ordered (snapshot i) = false) ->
   NoDup (map created_at table) ->
   exists listed : list Row,
     flat_map items (seq 1 (Z.to_nat pages)) =
       map serializer_class listed /\
     Permutation listed table /\
     StronglySorted (fun u v => created_at u <= created_at v) listed) /\
  ((forall i, ordered (snapshot i) = true /\ rows (snapshot i) = table) ->
   flat_map items (seq 1 (Z.to_nat pages)) = map serializer_class table).
Proof.
  intros size total pages items Hsize Htotal Hperm.
  assert (Ht : 0 <= total) by (subst total; lia).
  assert (Hge : 1 <= pages).
  { apply exact_pages_ge_one; [exact Ht|apply Hsize]. }
  assert (Hlen : forall i,
            Z.of_nat (List.length (rows (snapshot i))) = total).
  { intros i. subst total. f_equal. apply Permutation_length, Hperm. }
  assert (Hitems : forall listed,
    (forall i,
       paginator_for created_at size (snapshot i) =
       {| object_list := listed; per_page := size |}) ->
    Z.of_nat (List.length listed) = total ->
    flat_map items (seq 1 (Z.to_nat pages)) = map serializer_class listed).
  { intros listed Hp Hl.
    rewrite (flat_map_eq_in _
               (fun i => map serializer_class
                           (rows_of {| object_list := listed;
                                       per_page := size |}
                              (Z.of_nat i)))).
    - rewrite flat_map_map. f_equal.
      apply (all_pages {| object_list := listed; per_page := size |});
        [apply Hsize|lia|].
      unfold count. cbn [object_list per_page]. rewrite Hl.
      apply exact_pages_cover; [exact Ht|apply Hsize].
    - intros i Hi. apply in_seq in Hi. subst items. cbv beta.
      rewrite <- (Hp i). apply page_items_served; [exact Hsize| |].
      + rewrite Hlen. exact Htotal.
      + rewrite Hlen. fold size pages. lia. }
  split.
  - intros Hunordered Hnd.
    exists (fold_right (insert_by created_at) [] table).
    assert (Hsort :
      rows (order_by_created_at created_at
              {| ordered := false; rows := table |}) =
      fold_right (insert_by created_at) [] table) by reflexivity.
    split; [|split].
    + apply Hitems.
      * intros i. unfold paginator_for. rewrite Hunordered. cbn [negb].
        f_equal. apply order_by_snapshot; [exact Hnd|apply Hperm].
      * rewrite <- Hsort, length_order_by. reflexivity.
    + rewrite <- Hsort. apply order_by_permutation.
    + rewrite <- Hsort. apply order_by_sorted.
  - intros Hordered. apply Hitems; [|reflexivity].
    intros i. destruct (Hordered i) as [Ho Hrows].
    unfold paginator_for. rewrite Ho. cbn [negb]. now rewrite Hrows.
Qed.

End Pages.

(** Without the condition on [created_at] the pages need not hold every
    row: of two rows created at the same time, which the first request
    finds in one order and the second in the other, one comes on both
    pages and the other on none. *)
Example pages_with_ties_repeat_a_row :
  let first := {| ordered := false; rows := [(0, 1); (0, 2)] |} in
  let second := {| ordered := false; rows := [(0, 2); (0, 1)] |} in
  let page n q :=
    page_items
      (paginated_response (fun row : Z * Z => fst row) same_url_replace
         same_url_remove (with_page (request_for page_absent) n) (Some q)
         (fun row => PInt (snd row)) None (Some 1) None) in
  page 1 first = [PInt 1] /\ page 2 second = [PInt 1].
Proof. split; vm_compute; reflexivity. Qed.

Lemma pages_served_and_refused_witness :
  paginated_response (fun z : Z => z) same_url_replace same_url_remove
    (with_page (request_for page_absent) 4) (Some twenty_five) PInt None
    None None =
  Raise NotFound.
Proof.
  assert (Hsize : 0 < default 10 None < 2 ^ 1075)
    by (split; vm_compute; reflexivity).
  assert (Htotal : Z.of_nat (List.length (rows twenty_five)) < 2 ^ 53)
    by (vm_compute; reflexivity).
  pose proof (pages_served_and_refused (fun z : Z => z) same_url_replace
                same_url_remove (request_for page_absent) twenty_five PInt
                None None None Hsize Htotal) as H.
  destruct H as (_ & H & _). apply H.
  right. vm_compute. reflexivity.
Defined.

Lemma page_lengths_witness :
  Z.of_nat
    (List.length
       (page_items
          (paginated_response (fun z : Z => z) same_url_replace
             same_url_remove (with_page (request_for page_absent) 3)
             (Some twenty_five) PInt None None None))) =
  Z.min 10 (25 - (3 - 1) * 10).
Proof.
  assert (Hsize : 0 < default 10 None < 2 ^ 1075)
    by (split; vm_compute; reflexivity).
  assert (Htotal : Z.of_nat (List.length (rows twenty_five)) < 2 ^ 53)
    by (vm_compute; reflexivity).
  pose proof (page_lengths (fun z : Z => z) same_url_replace
                same_url_remove (request_for page_absent) twenty_five PInt
                None None None (n := 3) Hsize Htotal) as H.
  destruct H as (H & _); [split; vm_compute; discriminate|].
  exact H.
Defined.

Lemma links_of_a_page_witness :
  exists r n pages,
    paginated_response (fun z : Z => z) same_url_replace same_url_remove
      (request_for page_last) (Some twenty_five) PInt None None None =
    Ok r /\
    pagination r "current_page" = PInt n /\
    pagination r "total_pages" = PInt pages /\
    1 <= n <= pages /\
    (pagination r "next" = PNone <-> n = pages).
Proof.
  assert (Hr : exists r,
    paginated_response (fun z : Z => z) same_url_replace same_url_remove
      (request_for page_last) (Some twenty_five) PInt None None None =
    Ok r) by (eexists; vm_compute; reflexivity).
  destruct Hr as (r & Hr).
  destruct (links_of_a_page (fun z : Z => z) same_url_replace
              same_url_remove (request_for page_last) twenty_five PInt
              None None None Hr)
    as (n & pages & Hn & Hpages & Hle & Hnext & _).
  exists r, n, pages.
  split; [exact Hr|]. split; [exact Hn|]. split; [exact Hpages|].
  split; [exact Hle|exact Hnext].
Defined.

Lemma pages_in_order_witness :
  exists r n listed,
    paginated_response (fun z : Z => z) same_url_replace same_url_remove
      (request_for page_absent) (Some twenty_five) PInt None None None =
    Ok r /\
    item (data r) "data" =
      PList (map PInt (slice listed ((n - 1) * 10) (Z.min (n * 10) 25))) /\
    Permutation listed (rows twenty_five) /\
    StronglySorted (fun u v => u <= v) listed.
Proof.
  assert (Hr : exists r,
    paginated_response (fun z : Z => z) same_url_replace same_url_remove
      (request_for page_absent) (Some twenty_five) PInt None None None =
    Ok r) by (eexists; vm_compute; reflexivity).
  destruct Hr as (r & Hr).
  destruct (pages_in_order (fun z : Z => z) same_url_replace
              same_url_remove (request_for page_absent) twenty_five PInt
              None None None Hr)
    as (n & listed & _ & Hdata & Hperm & _ & Hsorted).
  exists r, n, listed.
  split; [exact Hr|]. split; [exact Hdata|]. split; [exact Hperm|].
  apply Hsorted. reflexivity.
Defined.

Lemma pages_partition_the_rows_witness :
  exists listed : list Z,
    flat_map
      (fun i =>
         page_items
           (paginated_response (fun z : Z => z) same_url_replace
              same_url_remove
              (with_page (request_for page_absent) (Z.of_nat i))
              (Some twenty_five) PInt None None None))
      (seq 1 3) =
    map PInt listed /\
    Permutation listed (rows twenty_five) /\
    StronglySorted (fun u v => u <= v) listed.
Proof.
  assert (Hsize : 0 < default 10 None < 2 ^ 1075)
    by (split; vm_compute; reflexivity).
  assert (Htotal : Z.of_nat (List.length (rows twenty_five)) < 2 ^ 53)
    by (vm_compute; reflexivity).
  pose proof (@pages_partition_the_rows Z (fun z : Z => z)
                same_url_replace same_url_remove
                (request_for page_absent) (rows twenty_five)
                (fun _ => twenty_five) PInt None None None Hsize Htotal
                (fun _ => Permutation_refl _)) as H.
  destruct H as (H & _). apply H.
  - reflexivity.
  - rewrite map_id. unfold twenty_five. cbn [rows].
    apply Finite.Injective_map_NoDup; [exact Nat2Z.inj|].
    apply NoDup_rev, seq_NoDup.
Defined.

End PageProperties.
